(** * rediskit: configuration, validation, construction and health check

    A shallow embedding of [client.go] (package [rediskit]).

    The Go code passes [*Config] and [*Client] pointers around, stores the
    configuration pointer inside the client and hands the same pointer back
    from [GetConfig].  The embedding therefore keeps an explicit store of
    [Config] and [Client] objects, addressed by locations, and writes every
    function of the package as a computation over that store.  A nullable Go
    pointer is an [option] of a location, a nil [error] is [None].

    The go-redis driver is not part of the package.  Its two entry points used
    here, [redis.NewClient] and [Ping] of [redis.Client], are calls to the
    outside: each call that returns is appended to a trace, and what the
    driver answers, or whether its constructor panics instead, is taken from
    an arbitrary environment. *)

From stdpp Require Import gmap strings list.
From Stdlib Require Import ZArith Lia Ascii String.

Local Open Scope string_scope.
Local Open Scope Z_scope.

(** ** Go packages the code imports *)

(** [time.Duration] is an [int64] count of nanoseconds.  The unit constants
    are those of package [time]; the products written in [client.go] are
    constant expressions, evaluated exactly by the compiler. *)
Module time.
Definition Duration : Type := Z.
Definition Nanosecond : Duration := 1.
Definition Microsecond : Duration := 1000 * Nanosecond.
Definition Millisecond : Duration := 1000 * Microsecond.
Definition Second : Duration := 1000 * Millisecond.
Definition Minute : Duration := 60 * Second.
Definition Hour : Duration := 60 * Minute.

(** The range of the underlying [int64]. *)
Definition in_range (d : Duration) : Prop := - 2 ^ 63 <= d < 2 ^ 63.
End time.

(** Package [errors] and the [%w] verb of [fmt.Errorf].

    [errors.New] returns a pointer to a fresh [errorString]; the [addr]
    component stands for that pointer, so that two errors made by different
    calls of [errors.New] differ even when their texts agree.  [fmt.Errorf]
    with a [%w] verb returns a [wrapError] that keeps the formatted message
    and the wrapped error. *)
Module errors.
Inductive error : Type :=
| errorString (addr : positive) (s : string)
| wrapError (msg : string) (err : error).

#[export] Instance error_eq_dec : EqDecision error.
Proof. solve_decision. Defined.

(** The [Error()] method. *)
Definition Error (e : error) : string :=
  match e with
  | errorString _ s => s
  | wrapError msg _ => msg
  end.

(** The [Unwrap()] method; absent (nil) on an [errorString]. *)
Definition Unwrap (e : error) : option error :=
  match e with
  | errorString _ _ => None
  | wrapError _ err => Some err
  end.

(** [errors.Is]: walk the chain of [Unwrap], comparing with [==]. *)
Fixpoint Is (err target : error) : bool :=
  bool_decide (err = target) ||
  match err with
  | errorString _ _ => false
  | wrapError _ inner => Is inner target
  end.
End errors.
Export errors.

Module fmt.
(** The message [fmt.Errorf] builds from a format holding one [%w] verb:
    the verb is replaced by the text of the error argument.  The formats of
    this package hold exactly one verb and no other [%]. *)
Fixpoint Sprintf_w (format arg : string) : string :=
  match format with
  | String "%"%char (String "w"%char rest) => arg +:+ rest
  | String ch rest => String ch (Sprintf_w rest arg)
  | EmptyString => EmptyString
  end.

Definition Errorf (format : string) (err : error) : error :=
  wrapError (Sprintf_w format (Error err)) err.
End fmt.

(** Package [context], as far as it is used: the background context and a
    child that carries a timeout. *)
Module context.
Inductive Context : Type :=
| Background
| WithTimeout (parent : Context) (timeout : time.Duration).

(** The timeout a context was derived with, if any. *)
Definition Timeout (ctx : Context) : option time.Duration :=
  match ctx with
  | Background => None
  | WithTimeout _ d => Some d
  end.
End context.

(** The part of go-redis the package touches. *)
Module redis.
Record Options : Type := {
  Addr : string;
  Password : string;
  DB : Z;
  MaxRetries : Z;
  MinRetryBackoff : time.Duration;
  MaxRetryBackoff : time.Duration;
  DialTimeout : time.Duration;
  ReadTimeout : time.Duration;
  WriteTimeout : time.Duration;
  PoolSize : Z;
  MinIdleConns : Z;
  ConnMaxIdleTime : time.Duration;
  ConnMaxLifetime : time.Duration
}.

(** A [*redis.Client] as handed out by [redis.NewClient] is never nil; it
    is an opaque handle, identified by its address. *)
Definition Client : Type := positive.
End redis.

(** ** The package's own data *)

Definition ErrNilClient : error := errorString 1 "redis client is nil".
Definition ErrInvalidConfig : error := errorString 2 "invalid redis configuration".

(** [Config]; Go's [int] fields are integers, durations are nanoseconds. *)
Record Config : Type := {
  Host : string;
  Port : string;
  Password : string;
  DB : Z;
  SocketKeepalive : bool;
  HealthCheckInterval : time.Duration;
  SocketTimeout : time.Duration;
  SocketConnectTimeout : time.Duration;
  MaxRetries : Z;
  MinRetryBackoff : time.Duration;
  MaxRetryBackoff : time.Duration;
  PoolSize : Z;
  MinIdleConns : Z;
  ConnMaxIdleTime : time.Duration;
  ConnMaxLifetime : time.Duration;
  DefaultTimeout : time.Duration
}.

(** A location of the store; a Go pointer is [option loc], nil being [None]. *)
Abbreviation loc := positive (only parsing).

(** [Client]: the embedded [*redis.Client] and the [*Config] it keeps. *)
Record Client : Type := {
  redis_Client : option redis.Client;
  config : option loc
}.

(** The value [DefaultConfig] builds. *)
Definition DefaultConfig_value : Config := {|
  Host := "localhost";
  Port := "6379";
  Password := "";
  DB := 0;
  SocketKeepalive := true;
  HealthCheckInterval := 5 * time.Second;
  SocketTimeout := 5 * time.Second;
  SocketConnectTimeout := 3 * time.Second;
  MaxRetries := 5;
  MinRetryBackoff := 100 * time.Millisecond;
  MaxRetryBackoff := 100 * time.Millisecond;
  PoolSize := 10;
  MinIdleConns := 2;
  ConnMaxIdleTime := 5 * time.Minute;
  ConnMaxLifetime := 30 * time.Minute;
  DefaultTimeout := 5 * time.Second
|}.

(** The [redis.Options] literal built from the configuration. *)
Definition Options_of (cfg : Config) : redis.Options := {|
  redis.Addr := Host cfg +:+ ":" +:+ Port cfg;
  redis.Password := Password cfg;
  redis.DB := DB cfg;
  redis.MaxRetries := MaxRetries cfg;
  redis.MinRetryBackoff := MinRetryBackoff cfg;
  redis.MaxRetryBackoff := MaxRetryBackoff cfg;
  redis.DialTimeout := SocketConnectTimeout cfg;
  redis.ReadTimeout := SocketTimeout cfg;
  redis.WriteTimeout := SocketTimeout cfg;
  redis.PoolSize := PoolSize cfg;
  redis.MinIdleConns := MinIdleConns cfg;
  redis.ConnMaxIdleTime := ConnMaxIdleTime cfg;
  redis.ConnMaxLifetime := ConnMaxLifetime cfg
|}.

(** ** Calls to the outside and the store *)

Inductive event : Type :=
| NewClientCall (opt : redis.Options) (ret : redis.Client)
| PingCall (rdb : redis.Client) (ctx : context.Context) (ret : option error)
| CancelCall (ctx : context.Context).

(** What the driver does, given everything that happened so far.

    [redis.NewClient] sizes its connection pool from the options and panics
    on options it cannot serve; the package hands it [PoolSize] and
    [MinIdleConns] as they are, [Validate] having put no upper bound on them.
    [NewClient_panics] tells on which options the constructor panics, and
    with what; on all others it returns the handle [NewClient_ret].  All that
    is taken for granted about the constructor is that it returns on the
    options built from the package's own defaults. *)
Record Driver : Type := {
  NewClient_panics : redis.Options -> option string;
  NewClient_ret : list event -> redis.Options -> redis.Client;
  Ping_err : list event -> redis.Client -> context.Context -> option error;
  NewClient_default_returns : NewClient_panics (Options_of DefaultConfig_value) = None
}.

Record world : Type := {
  configs : gmap positive Config;
  clients : gmap positive Client;
  trace : list event
}.

Definition is_PingCall (e : event) : bool :=
  match e with
  | PingCall _ _ _ => true
  | _ => false
  end.

(** The number of probes recorded in a trace. *)
Definition pings (t : list event) : nat := List.length (List.filter is_PingCall t).

(** ** Computations: state passing, with Go's run-time panic *)

Inductive result (A : Type) : Type :=
| Ok (a : A)
| Panic (msg : string).
Arguments Ok {A} a.
Arguments Panic {A} msg.

Definition M (A : Type) : Type := world -> result A * world.

Definition ret {A} (a : A) : M A := fun w => (Ok a, w).

Definition bind {A B} (m : M A) (k : A -> M B) : M B :=
  fun w =>
    match m w with
    | (Ok a, w') => k a w'
    | (Panic msg, w') => (Panic msg, w')
    end.

Declare Scope go_scope.
Delimit Scope go_scope with go.
Notation "x <- m ;; k" := (bind m (fun x => k))
  (at level 100, m at next level, right associativity) : go_scope.
Notation "m ;;; k" := (bind m (fun _ => k))
  (at level 100, right associativity) : go_scope.
Local Open Scope go_scope.

Definition nil_dereference : string :=
  "runtime error: invalid memory address or nil pointer dereference".

(** A location outside the store; Go's memory safety rules this out. *)
Definition dangling : string := "pointer to no object".

(** [*p] for a [*Config]. *)
Definition load_Config (p : option loc) : M Config :=
  fun w =>
    match p with
    | None => (Panic nil_dereference, w)
    | Some l =>
      match configs w !! l with
      | Some c => (Ok c, w)
      | None => (Panic dangling, w)
      end
    end.

(** [*p] for a [*Client]. *)
Definition load_Client (p : option loc) : M Client :=
  fun w =>
    match p with
    | None => (Panic nil_dereference, w)
    | Some l =>
      match clients w !! l with
      | Some c => (Ok c, w)
      | None => (Panic dangling, w)
      end
    end.

(** [p.f]: read one field through the pointer. *)
Definition Config_field {A} (p : option loc) (f : Config -> A) : M A :=
  c <- load_Config p ;; ret (f c).

Definition Client_field {A} (p : option loc) (f : Client -> A) : M A :=
  c <- load_Client p ;; ret (f c).

(** [&Config{...}]: a new object at a location not in use. *)
Definition new_Config (c : Config) : M (option loc) :=
  fun w =>
    let l := fresh (dom (configs w)) in
    (Ok (Some l),
     {| configs := <[l := c]> (configs w); clients := clients w; trace := trace w |}).

(** [&Client{...}]. *)
Definition new_Client (c : Client) : M (option loc) :=
  fun w =>
    let l := fresh (dom (clients w)) in
    (Ok (Some l),
     {| configs := configs w; clients := <[l := c]> (clients w); trace := trace w |}).

Definition history : M (list event) := fun w => (Ok (trace w), w).

(** A run-time panic: the computation stops, the store stays as it is. *)
Definition panic {A} (msg : string) : M A := fun w => (Panic msg, w).

Definition emit (e : event) : M unit :=
  fun w =>
    (Ok tt, {| configs := configs w; clients := clients w; trace := trace w ++ [e] |}).

Section Rediskit.

Variable driver : Driver.

(** [redis.NewClient(opt)]: a panic of the constructor goes up to the
    caller, there being no [recover]; a call that returns is recorded. *)
Definition redis_NewClient (opt : redis.Options) : M redis.Client :=
  match NewClient_panics driver opt with
  | Some msg => panic msg
  | None =>
    t <- history ;;
    let r := NewClient_ret driver t opt in
    emit (NewClientCall opt r) ;;;
    ret r
  end.

(** [rdb.Ping(ctx).Err()]. *)
Definition redis_Ping (rdb : redis.Client) (ctx : context.Context) : M (option error) :=
  t <- history ;;
  let r := Ping_err driver t rdb ctx in
  emit (PingCall rdb ctx r) ;;;
  ret r.

(** The [cancel] function returned by [context.WithTimeout]. *)
Definition cancel (ctx : context.Context) : M unit := emit (CancelCall ctx).

(** *** [DefaultConfig] *)

Definition DefaultConfig : M (option loc) := new_Config DefaultConfig_value.

(** *** [Config.Validate] *)

Definition Validate (c : option loc) : M (option error) :=
  host <- Config_field c Host ;;
  if String.eqb host "" then
    ret (Some (fmt.Errorf "%w: host is required" ErrInvalidConfig))
  else
  port <- Config_field c Port ;;
  if String.eqb port "" then
    ret (Some (fmt.Errorf "%w: port is required" ErrInvalidConfig))
  else
  poolSize <- Config_field c PoolSize ;;
  if poolSize <=? 0 then
    ret (Some (fmt.Errorf "%w: pool size must be greater than 0" ErrInvalidConfig))
  else
  defaultTimeout <- Config_field c DefaultTimeout ;;
  if defaultTimeout <=? 0 then
    ret (Some (fmt.Errorf "%w: default timeout must be greater than 0" ErrInvalidConfig))
  else
  ret None.

(** *** [NewClient] *)

Definition NewClient (cfg : option loc) : M (option loc * option error) :=
  cfg <- match cfg with
         | None => DefaultConfig
         | Some _ => ret cfg
         end ;;
  err <- Validate cfg ;;
  match err with
  | Some e => ret (None, Some e)
  | None =>
    opt <- Config_field cfg Options_of ;;
    rdb <- redis_NewClient opt ;;
    c <- new_Client {| redis_Client := Some rdb; config := cfg |} ;;
    ret (c, None)
  end.

(** *** [Client.HealthCheck] and [Client.GetConfig] *)

Definition HealthCheck (c : option loc) : M (option error) :=
  rdb <- Client_field c redis_Client ;;
  match rdb with
  | None => ret (Some ErrNilClient)
  | Some rdb =>
    cfg <- Client_field c config ;;
    timeout <- Config_field cfg DefaultTimeout ;;
    let ctx := context.WithTimeout context.Background timeout in
    err <- redis_Ping rdb ctx ;;
    cancel ctx ;;;
    ret err
  end.

Definition GetConfig (c : option loc) : M (option loc) :=
  Client_field c config.

End Rediskit.

(** ** Stores, configurations and drivers used below *)

(** A store holding one configuration, at location 1, and nothing else. *)
Definition store1 (c : Config) : world :=
  {| configs := {[1%positive := c]}; clients := ∅; trace := [] |}.

(** The configurations of the package's own tests. *)
Definition minimal (host port : string) (poolSize : Z) (defaultTimeout : time.Duration) : Config := {|
  Host := host;
  Port := port;
  Password := "";
  DB := 0;
  SocketKeepalive := false;
  HealthCheckInterval := 0;
  SocketTimeout := 0;
  SocketConnectTimeout := 0;
  MaxRetries := 0;
  MinRetryBackoff := 0;
  MaxRetryBackoff := 0;
  PoolSize := poolSize;
  MinIdleConns := 0;
  ConnMaxIdleTime := 0;
  ConnMaxLifetime := 0;
  DefaultTimeout := defaultTimeout
|}.

(** A constructor that keeps its pool counters in 32 bits and panics on a
    pool size or a minimum idle count beyond them. *)
Definition MaxInt32 : Z := 2147483647.

Definition beyond_int32 (opt : redis.Options) : option string :=
  if (MaxInt32 <? redis.PoolSize opt) || (MaxInt32 <? redis.MinIdleConns opt)
  then Some "redis: pool option out of range"
  else None.

(** A driver whose server always answers, and one whose server is away. *)
Definition healthy : Driver := {|
  NewClient_panics := beyond_int32;
  NewClient_ret := fun t _ => Pos.of_succ_nat (List.length t);
  Ping_err := fun _ _ _ => None;
  NewClient_default_returns := eq_refl
|}.

Definition unreachable : Driver := {|
  NewClient_panics := beyond_int32;
  NewClient_ret := fun t _ => Pos.of_succ_nat (List.length t);
  Ping_err := fun _ _ _ => Some (errorString 3 "dial tcp: connection refused");
  NewClient_default_returns := eq_refl
|}.

(** The invariants of a configuration, as the specification lists them. *)
Definition spec_invariants (c : Config) : Prop :=
  Host c <> "" /\ Port c <> "" /\
  0 < PoolSize c /\ 0 < DefaultTimeout c /\
  MinIdleConns c <= PoolSize c.

(** A configuration asking for more idle connections than the pool holds. *)
Definition idle_above_pool : Config := {|
  Host := "localhost";
  Port := "6379";
  Password := "";
  DB := 0;
  SocketKeepalive := false;
  HealthCheckInterval := 0;
  SocketTimeout := 0;
  SocketConnectTimeout := 0;
  MaxRetries := 0;
  MinRetryBackoff := 0;
  MaxRetryBackoff := 0;
  PoolSize := 1;
  MinIdleConns := 5;
  ConnMaxIdleTime := 0;
  ConnMaxLifetime := 0;
  DefaultTimeout := 5 * time.Second
|}.

(** The configuration of the test "with invalid config returns error":
    every tested field is invalid at once. *)
Definition all_invalid : Config := minimal "" "" 0 0.

(** The store after a successful [NewClient] on the configuration at [l]. *)
Definition constructed (driver : Driver) (l : positive) (c : Config) (w : world) : world :=
  let rdb := NewClient_ret driver (trace w) (Options_of c) in
  {| configs := configs w;
     clients := <[fresh (dom (clients w)) :=
                    {| redis_Client := Some rdb; config := Some l |}]> (clients w);
     trace := trace w ++ [NewClientCall (Options_of c) rdb] |}.

(** A store whose one client has a connection and no configuration. *)
Definition store_without_config : world :=
  {| configs := {[1%positive := DefaultConfig_value]};
     clients := {[1%positive := {| redis_Client := Some 7%positive; config := None |}]};
     trace := [] |}.

(** A store with one client, built on the default configuration. *)
Definition store_with_client : world :=
  {| configs := {[1%positive := DefaultConfig_value]};
     clients := {[1%positive := {| redis_Client := Some 7%positive;
                                   config := Some 1%positive |}]};
     trace := [] |}.

(** A configuration that sets only the four validated fields, with odd
    values everywhere else. *)
Definition odd_but_valid : Config := {|
  Host := "h";
  Port := "p";
  Password := "";
  DB := -1;
  SocketKeepalive := false;
  HealthCheckInterval := -1;
  SocketTimeout := -1;
  SocketConnectTimeout := 0;
  MaxRetries := -3;
  MinRetryBackoff := 2;
  MaxRetryBackoff := 1;
  PoolSize := 1;
  MinIdleConns := 9;
  ConnMaxIdleTime := -1;
  ConnMaxLifetime := -1;
  DefaultTimeout := 1
|}.

(** ** What callers do with the pointers *)

(** [p.f = v] on a [*Config]: the object at [p] is replaced by [upd] of it,
    [upd] changing the one field assigned. *)
Definition assign_Config (p : option loc) (upd : Config -> Config) : M unit :=
  fun w =>
    match p with
    | None => (Panic nil_dereference, w)
    | Some l =>
      match configs w !! l with
      | Some c =>
        (Ok tt,
         {| configs := <[l := upd c]> (configs w); clients := clients w; trace := trace w |})
      | None => (Panic dangling, w)
      end
    end.

Definition set_Host (v : string) (c : Config) : Config := {|
  Host := v;
  Port := Port c;
  Password := Password c;
  DB := DB c;
  SocketKeepalive := SocketKeepalive c;
  HealthCheckInterval := HealthCheckInterval c;
  SocketTimeout := SocketTimeout c;
  SocketConnectTimeout := SocketConnectTimeout c;
  MaxRetries := MaxRetries c;
  MinRetryBackoff := MinRetryBackoff c;
  MaxRetryBackoff := MaxRetryBackoff c;
  PoolSize := PoolSize c;
  MinIdleConns := MinIdleConns c;
  ConnMaxIdleTime := ConnMaxIdleTime c;
  ConnMaxLifetime := ConnMaxLifetime c;
  DefaultTimeout := DefaultTimeout c
|}.

Definition set_PoolSize (v : Z) (c : Config) : Config := {|
  Host := Host c;
  Port := Port c;
  Password := Password c;
  DB := DB c;
  SocketKeepalive := SocketKeepalive c;
  HealthCheckInterval := HealthCheckInterval c;
  SocketTimeout := SocketTimeout c;
  SocketConnectTimeout := SocketConnectTimeout c;
  MaxRetries := MaxRetries c;
  MinRetryBackoff := MinRetryBackoff c;
  MaxRetryBackoff := MaxRetryBackoff c;
  PoolSize := v;
  MinIdleConns := MinIdleConns c;
  ConnMaxIdleTime := ConnMaxIdleTime c;
  ConnMaxLifetime := ConnMaxLifetime c;
  DefaultTimeout := DefaultTimeout c
|}.

Definition set_DefaultTimeout (v : time.Duration) (c : Config) : Config := {|
  Host := Host c;
  Port := Port c;
  Password := Password c;
  DB := DB c;
  SocketKeepalive := SocketKeepalive c;
  HealthCheckInterval := HealthCheckInterval c;
  SocketTimeout := SocketTimeout c;
  SocketConnectTimeout := SocketConnectTimeout c;
  MaxRetries := MaxRetries c;
  MinRetryBackoff := MinRetryBackoff c;
  MaxRetryBackoff := MaxRetryBackoff c;
  PoolSize := PoolSize c;
  MinIdleConns := MinIdleConns c;
  ConnMaxIdleTime := ConnMaxIdleTime c;
  ConnMaxLifetime := ConnMaxLifetime c;
  DefaultTimeout := v
|}.

Definition set_SocketKeepalive (v : bool) (c : Config) : Config := {|
  Host := Host c;
  Port := Port c;
  Password := Password c;
  DB := DB c;
  SocketKeepalive := v;
  HealthCheckInterval := HealthCheckInterval c;
  SocketTimeout := SocketTimeout c;
  SocketConnectTimeout := SocketConnectTimeout c;
  MaxRetries := MaxRetries c;
  MinRetryBackoff := MinRetryBackoff c;
  MaxRetryBackoff := MaxRetryBackoff c;
  PoolSize := PoolSize c;
  MinIdleConns := MinIdleConns c;
  ConnMaxIdleTime := ConnMaxIdleTime c;
  ConnMaxLifetime := ConnMaxLifetime c;
  DefaultTimeout := DefaultTimeout c
|}.

Definition set_HealthCheckInterval (v : time.Duration) (c : Config) : Config := {|
  Host := Host c;
  Port := Port c;
  Password := Password c;
  DB := DB c;
  SocketKeepalive := SocketKeepalive c;
  HealthCheckInterval := v;
  SocketTimeout := SocketTimeout c;
  SocketConnectTimeout := SocketConnectTimeout c;
  MaxRetries := MaxRetries c;
  MinRetryBackoff := MinRetryBackoff c;
  MaxRetryBackoff := MaxRetryBackoff c;
  PoolSize := PoolSize c;
  MinIdleConns := MinIdleConns c;
  ConnMaxIdleTime := ConnMaxIdleTime c;
  ConnMaxLifetime := ConnMaxLifetime c;
  DefaultTimeout := DefaultTimeout c
|}.

(** The README's way to a custom client: take the defaults, assign [Host]
    and [PoolSize], construct. *)
Definition configure_then_connect (driver : Driver) (host : string) (poolSize : Z)
  : M (option loc * option error) :=
  cfg <- DefaultConfig ;;
  assign_Config cfg (set_Host host) ;;;
  assign_Config cfg (set_PoolSize poolSize) ;;;
  NewClient driver cfg.

(** The README's start-up sequence: construct, stop at an error, else run
    the health check. *)
Definition connect_then_check (driver : Driver) (cfg : option loc) : M (option error) :=
  r <- NewClient driver cfg ;;
  match snd r with
  | Some e => ret (Some e)
  | None => HealthCheck driver (fst r)
  end.

(** Two clients made one after the other, and the configuration pointer each
    of them reports, as in the test of several clients. *)
Definition two_clients (driver : Driver) (cfg1 cfg2 : option loc)
  : M (option loc * option loc * option loc * option loc) :=
  r1 <- NewClient driver cfg1 ;;
  r2 <- NewClient driver cfg2 ;;
  p1 <- GetConfig (fst r1) ;;
  p2 <- GetConfig (fst r2) ;;
  ret (fst r1, fst r2, p1, p2).

(** The store once the default configuration is put at a free location. *)
Definition with_default (w : world) : world :=
  {| configs := <[fresh (dom (configs w)) := DefaultConfig_value]> (configs w);
     clients := clients w;
     trace := trace w |}.

(** The store after a health check that pinged [rdb] with timeout [d]. *)
Definition pinged (driver : Driver) (rdb : redis.Client) (d : time.Duration) (w : world) : world :=
  let ctx := context.WithTimeout context.Background d in
  {| configs := configs w;
     clients := clients w;
     trace := (trace w ++ [PingCall rdb ctx (Ping_err driver (trace w) rdb ctx)])
              ++ [CancelCall ctx] |}.

(** ** Runs on concrete inputs *)

Example Validate_empty_host :
  Validate (Some 1%positive) (store1 (minimal "" "6379" 10 (5 * time.Second)))
  = (Ok (Some (wrapError "invalid redis configuration: host is required" ErrInvalidConfig)),
     store1 (minimal "" "6379" 10 (5 * time.Second))).
Proof. reflexivity. Qed.

Example Validate_negative_pool :
  fst (Validate (Some 1%positive) (store1 (minimal "localhost" "6379" (-5) (5 * time.Second))))
  = Ok (Some (wrapError "invalid redis configuration: pool size must be greater than 0"
                        ErrInvalidConfig)).
Proof. reflexivity. Qed.

Example Validate_nil_receiver (w : world) :
  Validate None w = (Panic nil_dereference, w).
Proof. reflexivity. Qed.

Example Is_wrapped :
  Is (fmt.Errorf "%w: port is required" ErrInvalidConfig) ErrInvalidConfig = true
  /\ Is (fmt.Errorf "%w: port is required" ErrInvalidConfig) ErrNilClient = false.
Proof. split; reflexivity. Qed.

Example HealthCheck_nil_connection :
  HealthCheck healthy (Some 1%positive)
    {| configs := {[1%positive := DefaultConfig_value]};
       clients := {[1%positive := {| redis_Client := None; config := Some 1%positive |}]};
       trace := [] |}
  = (Ok (Some ErrNilClient),
     {| configs := {[1%positive := DefaultConfig_value]};
        clients := {[1%positive := {| redis_Client := None; config := Some 1%positive |}]};
        trace := [] |}).
Proof. reflexivity. Qed.

(** ** Facts about the monad and the store *)

Ltac go_unfold :=
  unfold Config_field, Client_field, load_Config, load_Client,
         new_Config, new_Client, history, emit, bind, ret in *.

Lemma Config_field_run {A} (f : Config -> A) (w : world) (l : positive) (c : Config) :
  configs w !! l = Some c ->
  Config_field (Some l) f w = (Ok (f c), w).
Proof. intros H. go_unfold. rewrite H. reflexivity. Qed.

Lemma Client_field_run {A} (f : Client -> A) (w : world) (l : positive) (c : Client) :
  clients w !! l = Some c ->
  Client_field (Some l) f w = (Ok (f c), w).
Proof. intros H. go_unfold. rewrite H. reflexivity. Qed.

Lemma bind_run {A B} (m : M A) (k : A -> M B) (w w' : world) (a : A) :
  m w = (Ok a, w') -> bind m k w = k a w'.
Proof. intros H. unfold bind. rewrite H. reflexivity. Qed.

Lemma eqb_empty (s : string) : String.eqb s "" = true <-> s = "".
Proof. apply String.eqb_eq. Qed.

Lemma eqb_nonempty (s : string) : String.eqb s "" = false <-> s <> "".
Proof. apply String.eqb_neq. Qed.

(** ** [Validate] *)

(** [Validate] on a live configuration: the four tests, in the order of the
    source, and the store as it was. *)
Lemma Validate_run (w : world) (l : positive) (c : Config) :
  configs w !! l = Some c ->
  Validate (Some l) w =
  (Ok (if String.eqb (Host c) "" then
         Some (fmt.Errorf "%w: host is required" ErrInvalidConfig)
       else if String.eqb (Port c) "" then
         Some (fmt.Errorf "%w: port is required" ErrInvalidConfig)
       else if PoolSize c <=? 0 then
         Some (fmt.Errorf "%w: pool size must be greater than 0" ErrInvalidConfig)
       else if DefaultTimeout c <=? 0 then
         Some (fmt.Errorf "%w: default timeout must be greater than 0" ErrInvalidConfig)
       else None), w).
Proof.
  intros H. unfold Validate.
  rewrite (bind_run _ _ _ _ _ (Config_field_run Host w l c H)).
  destruct (String.eqb (Host c) ""); [reflexivity|].
  rewrite (bind_run _ _ _ _ _ (Config_field_run Port w l c H)).
  destruct (String.eqb (Port c) ""); [reflexivity|].
  rewrite (bind_run _ _ _ _ _ (Config_field_run PoolSize w l c H)).
  destruct (PoolSize c <=? 0); [reflexivity|].
  rewrite (bind_run _ _ _ _ _ (Config_field_run DefaultTimeout w l c H)).
  destruct (DefaultTimeout c <=? 0); reflexivity.
Qed.

(** Whatever the receiver, nil and dangling pointers included, [Validate]
    hands the store back as it got it. *)
Lemma Validate_frame (c : option positive) (w : world) :
  snd (Validate c w) = w.
Proof.
  destruct c as [l|]; [|reflexivity].
  destruct (configs w !! l) as [cfg|] eqn:H.
  - rewrite (Validate_run w l cfg H). reflexivity.
  - unfold Validate. go_unfold. rewrite H. reflexivity.
Qed.

(** Every error [Validate] returns wraps [ErrInvalidConfig]. *)
Lemma Validate_error_wraps (c : option positive) (w w' : world) (e : error) :
  Validate c w = (Ok (Some e), w') ->
  Is e ErrInvalidConfig = true.
Proof.
  destruct c as [l|]; [|discriminate].
  destruct (configs w !! l) as [cfg|] eqn:H.
  - rewrite (Validate_run w l cfg H).
    destruct (String.eqb (Host cfg) ""); [intros [= <- _]; reflexivity|].
    destruct (String.eqb (Port cfg) ""); [intros [= <- _]; reflexivity|].
    destruct (PoolSize cfg <=? 0); [intros [= <- _]; reflexivity|].
    destruct (DefaultTimeout cfg <=? 0); [intros [= <- _]; reflexivity|].
    discriminate.
  - unfold Validate. go_unfold. rewrite H. discriminate.
Qed.

(** C1, as stated, fails: [Validate] accepts a configuration whose minimum
    idle count (5) exceeds its pool size (1); nothing in [Validate] looks at
    [MinIdleConns]. *)
Lemma Validate_accepts_idle_above_pool :
  Validate (Some 1%positive) (store1 idle_above_pool) = (Ok None, store1 idle_above_pool)
  /\ ~ spec_invariants idle_above_pool.
Proof.
  split; [reflexivity|].
  unfold spec_invariants. cbn. lia.
Qed.

(** C1, amended: every configuration accepted by [Validate] has a non-empty
    host and a non-empty port (hence a non-empty address), a pool size
    strictly above 0 and a default timeout strictly above 0.  No relation
    between the minimum idle count and the pool size follows. *)
Theorem Validate_accepted_invariants (w w' : world) (l : positive) (c : Config)
    (Hc : configs w !! l = Some c)
    (Hok : Validate (Some l) w = (Ok None, w')) :
  Host c <> "" /\ Port c <> "" /\
  redis.Addr (Options_of c) <> "" /\
  0 < PoolSize c /\ 0 < DefaultTimeout c.
Proof.
  rewrite (Validate_run w l c Hc) in Hok.
  destruct (String.eqb (Host c) "") eqn:Hh; [discriminate|].
  destruct (String.eqb (Port c) "") eqn:Hp; [discriminate|].
  destruct (PoolSize c <=? 0) eqn:Hs; [discriminate|].
  destruct (DefaultTimeout c <=? 0) eqn:Ht; [discriminate|].
  apply eqb_nonempty in Hh. apply eqb_nonempty in Hp.
  apply Z.leb_gt in Hs. apply Z.leb_gt in Ht.
  repeat split; try assumption.
  cbn. destruct (Host c); [congruence | discriminate].
Qed.

Lemma Validate_accepted_invariants_witness :
  Host DefaultConfig_value <> "" /\ Port DefaultConfig_value <> "" /\
  redis.Addr (Options_of DefaultConfig_value) <> "" /\
  0 < PoolSize DefaultConfig_value /\ 0 < DefaultTimeout DefaultConfig_value.
Proof.
  apply (Validate_accepted_invariants (store1 DefaultConfig_value)
           (store1 DefaultConfig_value) 1%positive DefaultConfig_value);
    reflexivity.
Defined.

(** C2: for every configuration with an empty host, [Validate] fails with the
    error whose text is "invalid redis configuration: host is required" and
    which wraps [ErrInvalidConfig]; the other fields do not matter. *)
Theorem Validate_empty_host_fails (w : world) (l : positive) (c : Config)
    (Hc : configs w !! l = Some c)
    (Hhost : Host c = "") :
  exists e : error,
    Validate (Some l) w = (Ok (Some e), w)
    /\ Error e = "invalid redis configuration: host is required"
    /\ Unwrap e = Some ErrInvalidConfig
    /\ Is e ErrInvalidConfig = true.
Proof.
  exists (fmt.Errorf "%w: host is required" ErrInvalidConfig).
  rewrite (Validate_run w l c Hc), Hhost.
  repeat split.
Qed.

Lemma Validate_empty_host_fails_witness :
  exists e : error,
    Validate (Some 1%positive) (store1 (minimal "" "6379" 10 (5 * time.Second)))
    = (Ok (Some e), store1 (minimal "" "6379" 10 (5 * time.Second)))
    /\ Error e = "invalid redis configuration: host is required"
    /\ Unwrap e = Some ErrInvalidConfig
    /\ Is e ErrInvalidConfig = true.
Proof.
  apply (Validate_empty_host_fails _ 1%positive (minimal "" "6379" 10 (5 * time.Second)));
    reflexivity.
Defined.

(** C3, as stated, fails: with an empty host and pool size 0, [Validate]
    reports the host, not the pool size. *)
Lemma Validate_pool_size_hidden_by_host :
  PoolSize all_invalid <= 0
  /\ exists e : error,
       Validate (Some 1%positive) (store1 all_invalid) = (Ok (Some e), store1 all_invalid)
       /\ Error e = "invalid redis configuration: host is required"
       /\ Error e <> "invalid redis configuration: pool size must be greater than 0".
Proof.
  split; [cbn; lia|].
  eexists. split; [reflexivity|]. split; [reflexivity|]. discriminate.
Qed.

(** C3, amended: for every configuration with pool size at most 0,
    [Validate] fails with an error that wraps [ErrInvalidConfig]; when host
    and port are both non-empty, that error is the pool-size one, with text
    "invalid redis configuration: pool size must be greater than 0". *)
Theorem Validate_pool_size_fails (w : world) (l : positive) (c : Config)
    (Hc : configs w !! l = Some c)
    (Hpool : PoolSize c <= 0) :
  exists e : error,
    Validate (Some l) w = (Ok (Some e), w)
    /\ Is e ErrInvalidConfig = true
    /\ (Host c <> "" -> Port c <> "" ->
        Error e = "invalid redis configuration: pool size must be greater than 0"
        /\ Unwrap e = Some ErrInvalidConfig).
Proof.
  rewrite (Validate_run w l c Hc).
  apply Z.leb_le in Hpool. rewrite Hpool.
  destruct (String.eqb (Host c) "") eqn:Hh.
  { eexists. split; [reflexivity|]. split; [reflexivity|].
    apply eqb_empty in Hh. intros Hne. contradiction. }
  destruct (String.eqb (Port c) "") eqn:Hp.
  { eexists. split; [reflexivity|]. split; [reflexivity|].
    apply eqb_empty in Hp. intros _ Hne. contradiction. }
  eexists. split; [reflexivity|]. split; [reflexivity|].
  intros _ _. split; reflexivity.
Qed.

Lemma Validate_pool_size_fails_witness :
  exists e : error,
    Validate (Some 1%positive) (store1 (minimal "localhost" "6379" (-5) (5 * time.Second)))
    = (Ok (Some e), store1 (minimal "localhost" "6379" (-5) (5 * time.Second)))
    /\ Is e ErrInvalidConfig = true
    /\ Error e = "invalid redis configuration: pool size must be greater than 0"
    /\ Unwrap e = Some ErrInvalidConfig.
Proof.
  destruct (Validate_pool_size_fails
              (store1 (minimal "localhost" "6379" (-5) (5 * time.Second))) 1%positive
              (minimal "localhost" "6379" (-5) (5 * time.Second)))
    as [e [Hrun [His Hmsg]]]; [reflexivity | cbn; lia |].
  exists e. split; [exact Hrun|]. split; [exact His|].
  apply Hmsg; discriminate.
Defined.

(** C4, as stated, fails: with pool size 0 and default timeout 0 (host and
    port given), [Validate] reports the pool size, not the timeout. *)
Lemma Validate_timeout_hidden_by_pool_size :
  DefaultTimeout (minimal "localhost" "6379" 0 0) <= 0
  /\ exists e : error,
       Validate (Some 1%positive) (store1 (minimal "localhost" "6379" 0 0))
       = (Ok (Some e), store1 (minimal "localhost" "6379" 0 0))
       /\ Error e = "invalid redis configuration: pool size must be greater than 0"
       /\ Error e <> "invalid redis configuration: default timeout must be greater than 0".
Proof.
  split; [cbn; lia|].
  eexists. split; [reflexivity|]. split; [reflexivity|]. discriminate.
Qed.

(** C4, amended: for every configuration with default timeout at most 0,
    [Validate] fails with an error that wraps [ErrInvalidConfig]; when host
    and port are non-empty and the pool size is above 0, that error is the
    timeout one, with text
    "invalid redis configuration: default timeout must be greater than 0". *)
Theorem Validate_timeout_fails (w : world) (l : positive) (c : Config)
    (Hc : configs w !! l = Some c)
    (Htimeout : DefaultTimeout c <= 0) :
  exists e : error,
    Validate (Some l) w = (Ok (Some e), w)
    /\ Is e ErrInvalidConfig = true
    /\ (Host c <> "" -> Port c <> "" -> 0 < PoolSize c ->
        Error e = "invalid redis configuration: default timeout must be greater than 0"
        /\ Unwrap e = Some ErrInvalidConfig).
Proof.
  rewrite (Validate_run w l c Hc).
  apply Z.leb_le in Htimeout. rewrite Htimeout.
  destruct (String.eqb (Host c) "") eqn:Hh.
  { eexists. split; [reflexivity|]. split; [reflexivity|].
    apply eqb_empty in Hh. intros Hne. contradiction. }
  destruct (String.eqb (Port c) "") eqn:Hp.
  { eexists. split; [reflexivity|]. split; [reflexivity|].
    apply eqb_empty in Hp. intros _ Hne. contradiction. }
  destruct (PoolSize c <=? 0) eqn:Hs.
  { eexists. split; [reflexivity|]. split; [reflexivity|].
    apply Z.leb_le in Hs. intros _ _ Hpos. lia. }
  eexists. split; [reflexivity|]. split; [reflexivity|].
  intros _ _ _. split; reflexivity.
Qed.

Lemma Validate_timeout_fails_witness :
  exists e : error,
    Validate (Some 1%positive) (store1 (minimal "localhost" "6379" 10 (-1 * time.Second)))
    = (Ok (Some e), store1 (minimal "localhost" "6379" 10 (-1 * time.Second)))
    /\ Is e ErrInvalidConfig = true
    /\ Error e = "invalid redis configuration: default timeout must be greater than 0"
    /\ Unwrap e = Some ErrInvalidConfig.
Proof.
  destruct (Validate_timeout_fails
              (store1 (minimal "localhost" "6379" 10 (-1 * time.Second))) 1%positive
              (minimal "localhost" "6379" 10 (-1 * time.Second)))
    as [e [Hrun [His Hmsg]]]; [reflexivity | apply Z.leb_le; reflexivity |].
  exists e. split; [exact Hrun|]. split; [exact His|].
  apply Hmsg; [discriminate | discriminate | cbn; lia].
Defined.

(** C10: for every configuration with a non-empty host and an empty port,
    [Validate] fails with the error whose text is
    "invalid redis configuration: port is required" and which wraps
    [ErrInvalidConfig]; an empty port alone already makes [Validate] fail
    with an error wrapping [ErrInvalidConfig], whatever pool size and
    timeout are. *)
Theorem Validate_empty_port_fails (w : world) (l : positive) (c : Config)
    (Hc : configs w !! l = Some c)
    (Hport : Port c = "") :
  exists e : error,
    Validate (Some l) w = (Ok (Some e), w)
    /\ Is e ErrInvalidConfig = true
    /\ (Host c <> "" ->
        Error e = "invalid redis configuration: port is required"
        /\ Unwrap e = Some ErrInvalidConfig).
Proof.
  rewrite (Validate_run w l c Hc), Hport.
  destruct (String.eqb (Host c) "") eqn:Hh.
  - eexists. split; [reflexivity|]. split; [reflexivity|].
    apply eqb_empty in Hh. intros Hne. contradiction.
  - eexists. split; [reflexivity|]. split; [reflexivity|].
    intros _. split; reflexivity.
Qed.

Lemma Validate_empty_port_fails_witness :
  exists e : error,
    Validate (Some 1%positive) (store1 (minimal "localhost" "" 10 (5 * time.Second)))
    = (Ok (Some e), store1 (minimal "localhost" "" 10 (5 * time.Second)))
    /\ Is e ErrInvalidConfig = true
    /\ Error e = "invalid redis configuration: port is required"
    /\ Unwrap e = Some ErrInvalidConfig.
Proof.
  destruct (Validate_empty_port_fails
              (store1 (minimal "localhost" "" 10 (5 * time.Second))) 1%positive
              (minimal "localhost" "" 10 (5 * time.Second)))
    as [e [Hrun [His Hmsg]]]; [reflexivity | reflexivity |].
  exists e. split; [exact Hrun|]. split; [exact His|].
  apply Hmsg; discriminate.
Defined.

(** C9: [Validate] is pure.  Run on a live configuration it returns without
    panic and leaves the store, hence every field of every configuration,
    as it was; its verdict depends on the field values alone: on two stores
    and two locations holding equal configurations the verdicts are equal,
    and a second call right after the first repeats the first verdict. *)
Theorem Validate_pure (w1 w2 : world) (l1 l2 : positive) (c : Config)
    (H1 : configs w1 !! l1 = Some c)
    (H2 : configs w2 !! l2 = Some c) :
  exists v : option error,
    Validate (Some l1) w1 = (Ok v, w1)
    /\ Validate (Some l2) w2 = (Ok v, w2)
    /\ (r1 <- Validate (Some l1) ;; r2 <- Validate (Some l1) ;; ret (r1, r2)) w1
       = (Ok (v, v), w1).
Proof.
  pose proof (Validate_run w1 l1 c H1) as E1.
  pose proof (Validate_run w2 l2 c H2) as E2.
  eexists. split; [exact E1|]. split; [exact E2|].
  rewrite (bind_run _ _ _ _ _ E1), (bind_run _ _ _ _ _ E1). reflexivity.
Qed.

Lemma Validate_pure_witness :
  exists v : option error,
    Validate (Some 1%positive) (store1 all_invalid) = (Ok v, store1 all_invalid)
    /\ Validate (Some 2%positive)
         {| configs := {[2%positive := all_invalid]}; clients := ∅;
            trace := [CancelCall context.Background] |}
       = (Ok v, {| configs := {[2%positive := all_invalid]}; clients := ∅;
                   trace := [CancelCall context.Background] |})
    /\ (r1 <- Validate (Some 1%positive) ;; r2 <- Validate (Some 1%positive) ;; ret (r1, r2))
         (store1 all_invalid)
       = (Ok (v, v), store1 all_invalid).
Proof.
  apply (Validate_pure _ _ 1%positive 2%positive all_invalid); reflexivity.
Defined.

(** ** [DefaultConfig] *)

Lemma time_units :
  time.Millisecond = 1000000 /\ time.Second = 1000000000 /\ time.Minute = 60000000000.
Proof. repeat split. Qed.

(** The default durations are far inside the [int64] range, so the products
    that define them are exact. *)
Lemma DefaultConfig_durations_in_range :
  Forall time.in_range
    [HealthCheckInterval DefaultConfig_value; SocketTimeout DefaultConfig_value;
     SocketConnectTimeout DefaultConfig_value; MinRetryBackoff DefaultConfig_value;
     MaxRetryBackoff DefaultConfig_value; ConnMaxIdleTime DefaultConfig_value;
     ConnMaxLifetime DefaultConfig_value; DefaultTimeout DefaultConfig_value].
Proof.
  repeat (apply List.Forall_cons;
          [unfold time.in_range; split; [apply Z.leb_le | apply Z.ltb_lt]; reflexivity|]).
  apply List.Forall_nil.
Qed.

(** [DefaultConfig] never fails: it puts the default value at a location that
    was free and changes nothing else. *)
Lemma DefaultConfig_run (w : world) :
  DefaultConfig w =
  (Ok (Some (fresh (dom (configs w)))),
   {| configs := <[fresh (dom (configs w)) := DefaultConfig_value]> (configs w);
      clients := clients w;
      trace := trace w |}).
Proof. reflexivity. Qed.

Lemma fresh_location_free {V} (m : gmap positive V) : m !! fresh (dom m) = None.
Proof. apply not_elem_of_dom. apply is_fresh. Qed.

(** C5: in every store, [DefaultConfig] returns a pointer to a new
    configuration that passes [Validate], and whose fields are the literal
    defaults: host localhost, port 6379, pool size 10, min idle 2,
    default/read/write timeout 5s, connect timeout 3s, max retries 5, min and
    max retry backoff 100ms, idle lifetime 5 minutes, connection lifetime 30
    minutes, keepalive on, health-check interval 5s. *)
Theorem DefaultConfig_validates (w : world) :
  exists (l : positive) (w' : world) (c : Config),
    DefaultConfig w = (Ok (Some l), w')
    /\ configs w !! l = None
    /\ configs w' !! l = Some c
    /\ Validate (Some l) w' = (Ok None, w')
    /\ Host c = "localhost" /\ Port c = "6379"
    /\ PoolSize c = 10 /\ MinIdleConns c = 2
    /\ DefaultTimeout c = 5 * time.Second
    /\ SocketTimeout c = 5 * time.Second
    /\ redis.ReadTimeout (Options_of c) = 5 * time.Second
    /\ redis.WriteTimeout (Options_of c) = 5 * time.Second
    /\ SocketConnectTimeout c = 3 * time.Second
    /\ MaxRetries c = 5
    /\ MinRetryBackoff c = 100 * time.Millisecond
    /\ MaxRetryBackoff c = 100 * time.Millisecond
    /\ ConnMaxIdleTime c = 5 * time.Minute
    /\ ConnMaxLifetime c = 30 * time.Minute
    /\ SocketKeepalive c = true
    /\ HealthCheckInterval c = 5 * time.Second.
Proof.
  set (l := fresh (dom (configs w))).
  set (w1 := {| configs := <[l := DefaultConfig_value]> (configs w);
                clients := clients w; trace := trace w |}).
  assert (Hl : configs w1 !! l = Some DefaultConfig_value) by apply lookup_insert_eq.
  exists l, w1, DefaultConfig_value.
  split; [apply DefaultConfig_run|].
  split; [apply fresh_location_free|].
  split; [exact Hl|].
  split; [rewrite (Validate_run w1 l DefaultConfig_value Hl); reflexivity|].
  repeat split.
Qed.

(** ** [NewClient] *)

Lemma NewClient_rejects (driver : Driver) (w : world) (l : positive) (e : error) :
  Validate (Some l) w = (Ok (Some e), w) ->
  NewClient driver (Some l) w = (Ok (None, Some e), w).
Proof.
  intros Hv. unfold NewClient.
  rewrite (bind_run _ _ w w (Some l) eq_refl).
  rewrite (bind_run _ _ _ _ _ Hv). reflexivity.
Qed.

Lemma NewClient_accepts (driver : Driver) (w : world) (l : positive) (c : Config) :
  configs w !! l = Some c ->
  Validate (Some l) w = (Ok None, w) ->
  NewClient_panics driver (Options_of c) = None ->
  NewClient driver (Some l) w
  = (Ok (Some (fresh (dom (clients w))), None), constructed driver l c w).
Proof.
  intros Hc Hv Hd. unfold NewClient.
  rewrite (bind_run _ _ w w (Some l) eq_refl).
  rewrite (bind_run _ _ _ _ _ Hv).
  rewrite (bind_run _ _ _ _ _ (Config_field_run Options_of w l c Hc)).
  unfold redis_NewClient. rewrite Hd. reflexivity.
Qed.

(** A panic of the driver's constructor comes out of [NewClient] as it is;
    nothing was allocated or recorded before it. *)
Lemma NewClient_driver_panics (driver : Driver) (w : world) (l : positive) (c : Config)
    (msg : string) :
  configs w !! l = Some c ->
  Validate (Some l) w = (Ok None, w) ->
  NewClient_panics driver (Options_of c) = Some msg ->
  NewClient driver (Some l) w = (Panic msg, w).
Proof.
  intros Hc Hv Hd. unfold NewClient.
  rewrite (bind_run _ _ w w (Some l) eq_refl).
  rewrite (bind_run _ _ _ _ _ Hv).
  rewrite (bind_run _ _ _ _ _ (Config_field_run Options_of w l c Hc)).
  unfold redis_NewClient. rewrite Hd. reflexivity.
Qed.

Lemma GetConfig_constructed (driver : Driver) (l : positive) (c : Config) (w : world) :
  GetConfig (Some (fresh (dom (clients w)))) (constructed driver l c w)
  = (Ok (Some l), constructed driver l c w).
Proof.
  unfold GetConfig.
  apply (Client_field_run config _ _
           {| redis_Client := Some (NewClient_ret driver (trace w) (Options_of c));
              config := Some l |}).
  apply lookup_insert_eq.
Qed.

(** With a nil argument, [NewClient] carries on with the pointer that
    [DefaultConfig] returns. *)
Lemma NewClient_nil_substitutes (driver : Driver) (w : world) :
  NewClient driver None w
  = NewClient driver (Some (fresh (dom (configs w))))
      {| configs := <[fresh (dom (configs w)) := DefaultConfig_value]> (configs w);
         clients := clients w;
         trace := trace w |}.
Proof. reflexivity. Qed.

(** C6: [NewClient] on nil substitutes the default configuration before it
    validates: in every store and with every driver the call returns a
    non-nil client and a nil error, the configuration pointer that
    [GetConfig] returns for that client is a new object (not one of the
    store before the call) holding the default configuration, and the driver
    was given the options built from the defaults. *)
Theorem NewClient_nil_uses_defaults (driver : Driver) (w : world) :
  exists (lc lcfg : positive) (w' : world),
    NewClient driver None w = (Ok (Some lc, None), w')
    /\ GetConfig (Some lc) w' = (Ok (Some lcfg), w')
    /\ configs w !! lcfg = None
    /\ configs w' !! lcfg = Some DefaultConfig_value
    /\ Validate (Some lcfg) w' = (Ok None, w')
    /\ trace w' = (trace w ++
         [NewClientCall (Options_of DefaultConfig_value)
            (NewClient_ret driver (trace w) (Options_of DefaultConfig_value))])%list.
Proof.
  set (l := fresh (dom (configs w))).
  set (w1 := {| configs := <[l := DefaultConfig_value]> (configs w);
                clients := clients w; trace := trace w |}).
  assert (Hl : configs w1 !! l = Some DefaultConfig_value) by apply lookup_insert_eq.
  assert (Hv : Validate (Some l) w1 = (Ok None, w1))
    by (rewrite (Validate_run _ _ _ Hl); reflexivity).
  exists (fresh (dom (clients w))), l, (constructed driver l DefaultConfig_value w1).
  split.
  { rewrite NewClient_nil_substitutes.
    apply (NewClient_accepts driver w1 l _ Hl Hv (NewClient_default_returns driver)). }
  split.
  { exact (GetConfig_constructed driver l DefaultConfig_value w1). }
  split; [apply fresh_location_free|].
  split; [exact Hl|].
  split; [|reflexivity].
  rewrite (Validate_run (constructed driver l DefaultConfig_value w1) l
             DefaultConfig_value Hl).
  reflexivity.
Qed.

(** C7, as stated, fails: a configuration with pool size 2147483648 passes
    [Validate], which puts no upper bound on the pool size, and [NewClient]
    hands it to the driver's constructor as it is; with a constructor that
    panics on such a pool, [NewClient] panics and returns neither a client
    nor an error. *)
Lemma NewClient_accepted_yet_panics :
  Validate (Some 1%positive) (store1 (minimal "localhost" "6379" 2147483648 (5 * time.Second)))
  = (Ok None, store1 (minimal "localhost" "6379" 2147483648 (5 * time.Second)))
  /\ exists msg : string,
       NewClient healthy (Some 1%positive)
         (store1 (minimal "localhost" "6379" 2147483648 (5 * time.Second)))
       = (Panic msg, store1 (minimal "localhost" "6379" 2147483648 (5 * time.Second))).
Proof. split; [reflexivity|]. eexists. reflexivity. Qed.

(** C7, amended: [NewClient] fails fast.  For every configuration in the
    store, [Validate] returns a verdict; when the verdict is an error,
    [NewClient] returns a nil client together with that (non-nil) error and
    leaves the store and the trace untouched: no client object is made and
    the driver is never called.  When the verdict is nil and the driver's
    constructor returns on the options built from the configuration,
    [NewClient] returns a non-nil client and a nil error; that client is a
    new object holding the driver's handle and the very configuration
    pointer it was given.  When the verdict is nil and the constructor
    panics, the panic comes out of [NewClient], which returns nothing and
    leaves the store and the trace untouched. *)
Theorem NewClient_fails_fast (driver : Driver) (w : world) (l : positive) (c : Config)
    (Hc : configs w !! l = Some c) :
  (exists v : option error, Validate (Some l) w = (Ok v, w))
  /\ (forall e : error,
        Validate (Some l) w = (Ok (Some e), w) ->
        NewClient driver (Some l) w = (Ok (None, Some e), w))
  /\ (Validate (Some l) w = (Ok None, w) ->
      match NewClient_panics driver (Options_of c) with
      | Some msg => NewClient driver (Some l) w = (Panic msg, w)
      | None =>
        exists (lc : positive) (rdb : redis.Client) (w' : world),
          NewClient driver (Some l) w = (Ok (Some lc, None), w')
          /\ clients w !! lc = None
          /\ clients w' !! lc = Some {| redis_Client := Some rdb; config := Some l |}
          /\ GetConfig (Some lc) w' = (Ok (Some l), w')
          /\ configs w' = configs w
          /\ trace w' = (trace w ++ [NewClientCall (Options_of c) rdb])%list
      end).
Proof.
  split; [eexists; apply (Validate_run w l c Hc)|].
  split; [intros e Hv; apply NewClient_rejects; exact Hv|].
  intros Hv.
  destruct (NewClient_panics driver (Options_of c)) as [msg|] eqn:Hd.
  { apply (NewClient_driver_panics driver w l c msg Hc Hv Hd). }
  exists (fresh (dom (clients w))),
         (NewClient_ret driver (trace w) (Options_of c)),
         (constructed driver l c w).
  split; [apply NewClient_accepts; assumption|].
  split; [apply fresh_location_free|].
  split; [apply lookup_insert_eq|].
  split.
  { apply GetConfig_constructed. }
  split; reflexivity.
Qed.

Lemma NewClient_fails_fast_witness :
  NewClient healthy (Some 1%positive) (store1 all_invalid)
  = (Ok (None, Some (wrapError "invalid redis configuration: host is required"
                               ErrInvalidConfig)),
     store1 all_invalid)
  /\ (exists (lc : positive) (rdb : redis.Client) (w' : world),
       NewClient healthy (Some 1%positive) (store1 (minimal "test-host" "9999" 15 (7 * time.Second)))
       = (Ok (Some lc, None), w')
       /\ clients (store1 (minimal "test-host" "9999" 15 (7 * time.Second))) !! lc = None
       /\ clients w' !! lc = Some {| redis_Client := Some rdb; config := Some 1%positive |}
       /\ GetConfig (Some lc) w' = (Ok (Some 1%positive), w')
       /\ configs w' = configs (store1 (minimal "test-host" "9999" 15 (7 * time.Second)))
       /\ trace w' = (trace (store1 (minimal "test-host" "9999" 15 (7 * time.Second))) ++
            [NewClientCall (Options_of (minimal "test-host" "9999" 15 (7 * time.Second))) rdb])%list)
  /\ NewClient healthy (Some 1%positive)
       (store1 (minimal "test-host" "9999" 2147483648 (7 * time.Second)))
     = (Panic "redis: pool option out of range",
        store1 (minimal "test-host" "9999" 2147483648 (7 * time.Second))).
Proof.
  split; [|split].
  - apply (proj1 (proj2 (NewClient_fails_fast healthy (store1 all_invalid) 1%positive
                           all_invalid eq_refl))).
    reflexivity.
  - exact (proj2 (proj2 (NewClient_fails_fast healthy
                           (store1 (minimal "test-host" "9999" 15 (7 * time.Second)))
                           1%positive
                           (minimal "test-host" "9999" 15 (7 * time.Second)) eq_refl))
             eq_refl).
  - exact (proj2 (proj2 (NewClient_fails_fast healthy
                           (store1 (minimal "test-host" "9999" 2147483648 (7 * time.Second)))
                           1%positive
                           (minimal "test-host" "9999" 2147483648 (7 * time.Second)) eq_refl))
             eq_refl).
Defined.

(** ** [HealthCheck] *)

(** X6: a client whose embedded connection is nil is answered
    [ErrNilClient] at once: no call to the driver, no change of the store,
    and the configuration pointer is not looked at, so it may be nil too. *)
Lemma HealthCheck_nil_connection_run (driver : Driver) (w : world) (lc : positive) (cl : Client) :
  clients w !! lc = Some cl ->
  redis_Client cl = None ->
  HealthCheck driver (Some lc) w = (Ok (Some ErrNilClient), w).
Proof.
  intros Hcl Hrdb. unfold HealthCheck.
  rewrite (bind_run _ _ _ _ _ (Client_field_run redis_Client w lc cl Hcl)), Hrdb.
  reflexivity.
Qed.

(** X7: a client value that carries a connection but a nil configuration pointer
    (a struct literal that leaves [config] out; [NewClient] never builds one)
    has no configured timeout to read: the dereference panics before any
    probe is sent. *)
Lemma HealthCheck_nil_config_panics (driver : Driver) (w : world) (lc : positive) (cl : Client)
    (rdb : redis.Client) :
  clients w !! lc = Some cl ->
  redis_Client cl = Some rdb ->
  config cl = None ->
  HealthCheck driver (Some lc) w = (Panic nil_dereference, w).
Proof.
  intros Hcl Hrdb Hcfg. unfold HealthCheck.
  rewrite (bind_run _ _ _ _ _ (Client_field_run redis_Client w lc cl Hcl)), Hrdb.
  rewrite (bind_run _ _ _ _ _ (Client_field_run config w lc cl Hcl)), Hcfg.
  reflexivity.
Qed.

Lemma pings_app (t1 t2 : list event) : pings (t1 ++ t2) = (pings t1 + pings t2)%nat.
Proof. unfold pings. rewrite List.filter_app, List.length_app. reflexivity. Qed.

(** C8, as stated, fails: a client with a connection (handle 7) and a nil
    configuration pointer has a non-nil underlying connection, yet
    [HealthCheck] panics on reading its timeout and sends no ping at all. *)
Lemma HealthCheck_connection_without_config :
  clients store_without_config !! 1%positive
  = Some {| redis_Client := Some 7%positive; config := None |}
  /\ HealthCheck healthy (Some 1%positive) store_without_config
     = (Panic nil_dereference, store_without_config)
  /\ pings (trace (snd (HealthCheck healthy (Some 1%positive) store_without_config))) = 0%nat.
Proof. repeat split. Qed.

(** C8, amended: for every client with a non-nil connection [rdb] and a
    non-nil configuration pointer, [cfg] being the configuration it points
    to, and whatever the driver answers, [HealthCheck] sends exactly one
    [Ping] to [rdb], under a context derived from the background context
    with timeout [DefaultTimeout cfg], and returns exactly what that [Ping]
    returned (nil or the driver's error); afterwards it cancels the context.
    It calls the driver for nothing else and changes no object of the store. *)
Theorem HealthCheck_single_ping (driver : Driver) (w : world) (lc lcfg : positive)
    (cl : Client) (rdb : redis.Client) (cfg : Config)
    (Hcl : clients w !! lc = Some cl)
    (Hrdb : redis_Client cl = Some rdb)
    (Hptr : config cl = Some lcfg)
    (Hcfg : configs w !! lcfg = Some cfg) :
  let ctx := context.WithTimeout context.Background (DefaultTimeout cfg) in
  let reply := Ping_err driver (trace w) rdb ctx in
  exists w' : world,
    HealthCheck driver (Some lc) w = (Ok reply, w')
    /\ trace w' = (trace w ++ [PingCall rdb ctx reply; CancelCall ctx])%list
    /\ pings (trace w') = S (pings (trace w))
    /\ context.Timeout ctx = Some (DefaultTimeout cfg)
    /\ configs w' = configs w
    /\ clients w' = clients w.
Proof.
  intros ctx reply.
  exists {| configs := configs w; clients := clients w;
            trace := ((trace w ++ [PingCall rdb ctx reply]) ++ [CancelCall ctx])%list |}.
  split.
  { unfold HealthCheck.
    rewrite (bind_run _ _ _ _ _ (Client_field_run redis_Client w lc cl Hcl)), Hrdb.
    rewrite (bind_run _ _ _ _ _ (Client_field_run config w lc cl Hcl)), Hptr.
    rewrite (bind_run _ _ _ _ _ (Config_field_run DefaultTimeout w lcfg cfg Hcfg)).
    reflexivity. }
  cbn [trace configs clients].
  split; [rewrite <- List.app_assoc; reflexivity|].
  split; [|repeat split].
  rewrite !pings_app. cbn. lia.
Qed.

Lemma HealthCheck_single_ping_witness :
  exists w' : world,
    HealthCheck unreachable (Some 1%positive) store_with_client
    = (Ok (Some (errorString 3 "dial tcp: connection refused")), w')
    /\ trace w' =
       [PingCall 7%positive (context.WithTimeout context.Background (5 * time.Second))
          (Some (errorString 3 "dial tcp: connection refused"));
        CancelCall (context.WithTimeout context.Background (5 * time.Second))]
    /\ pings (trace w') = 1%nat
    /\ context.Timeout (context.WithTimeout context.Background (5 * time.Second))
       = Some (5 * time.Second)
    /\ configs w' = configs store_with_client
    /\ clients w' = clients store_with_client.
Proof.
  apply (HealthCheck_single_ping unreachable store_with_client 1%positive 1%positive
           {| redis_Client := Some 7%positive; config := Some 1%positive |}
           7%positive DefaultConfig_value);
    reflexivity.
Defined.

(** ** Further properties of [Validate] and [NewClient] *)

Lemma Validate_total (w : world) (l : positive) (c : Config) :
  configs w !! l = Some c ->
  exists v : option error, Validate (Some l) w = (Ok v, w).
Proof. intros H. eexists. apply (Validate_run w l c H). Qed.

(** The verdict moves with the configuration: another store holding the same
    value at the same location gets the same verdict. *)
Lemma Validate_transfer (w w' : world) (l : positive) (c : Config) (v : option error) :
  configs w !! l = Some c ->
  configs w' !! l = Some c ->
  Validate (Some l) w = (Ok v, w) ->
  Validate (Some l) w' = (Ok v, w').
Proof.
  intros H H' Hv.
  rewrite (Validate_run w l c H) in Hv.
  rewrite (Validate_run w' l c H').
  injection Hv as ->. reflexivity.
Qed.

Lemma Validate_dangling (w : world) (l : positive) :
  configs w !! l = None ->
  Validate (Some l) w = (Panic dangling, w).
Proof. intros H. unfold Validate. go_unfold. rewrite H. reflexivity. Qed.

Lemma NewClient_dangling (driver : Driver) (w : world) (l : positive) :
  configs w !! l = None ->
  NewClient driver (Some l) w = (Panic dangling, w).
Proof.
  intros H. unfold NewClient.
  rewrite (bind_run _ _ w w (Some l) eq_refl).
  unfold bind at 1. rewrite (Validate_dangling w l H). reflexivity.
Qed.

Lemma DefaultConfig_value_valid (w : world) (l : positive) :
  configs w !! l = Some DefaultConfig_value ->
  Validate (Some l) w = (Ok None, w).
Proof. intros H. rewrite (Validate_run w l _ H). reflexivity. Qed.

Lemma with_default_lookup (w : world) :
  configs (with_default w) !! fresh (dom (configs w)) = Some DefaultConfig_value.
Proof. apply lookup_insert_eq. Qed.

Lemma NewClient_nil_run (driver : Driver) (w : world) :
  NewClient driver None w
  = (Ok (Some (fresh (dom (clients w))), None),
     constructed driver (fresh (dom (configs w))) DefaultConfig_value (with_default w)).
Proof.
  rewrite NewClient_nil_substitutes.
  apply (NewClient_accepts driver (with_default w) _ _ (with_default_lookup w)).
  - apply DefaultConfig_value_valid, with_default_lookup.
  - apply NewClient_default_returns.
Qed.

(** The three ways a call of [NewClient] can end. *)
Lemma NewClient_cases (driver : Driver) (cfg : option positive) (w : world) :
  (exists msg, NewClient driver cfg w = (Panic msg, w))
  \/ (exists e, NewClient driver cfg w = (Ok (None, Some e), w)
                /\ Is e ErrInvalidConfig = true)
  \/ (exists (l : positive) (c : Config) (w1 : world),
        NewClient driver cfg w
        = (Ok (Some (fresh (dom (clients w))), None), constructed driver l c w1)
        /\ configs w ⊆ configs w1
        /\ clients w1 = clients w
        /\ trace w1 = trace w
        /\ configs w1 !! l = Some c).
Proof.
  destruct cfg as [l|].
  - destruct (configs w !! l) as [c|] eqn:Hc.
    + destruct (Validate_total w l c Hc) as [[e|] Hv].
      * right; left. exists e. split; [apply NewClient_rejects; exact Hv|].
        apply (Validate_error_wraps _ _ _ _ Hv).
      * destruct (NewClient_panics driver (Options_of c)) as [msg|] eqn:Hd.
        { left. exists msg. apply (NewClient_driver_panics driver w l c msg Hc Hv Hd). }
        right; right. exists l, c, w.
        split; [apply NewClient_accepts; assumption|]. repeat split; done.
    + left. eexists. apply NewClient_dangling, Hc.
  - right; right.
    exists (fresh (dom (configs w))), DefaultConfig_value, (with_default w).
    split; [apply NewClient_nil_run|].
    split; [apply insert_subseteq, fresh_location_free|].
    repeat split. apply with_default_lookup.
Qed.

(** X1: [Validate] accepts a configuration exactly when its host and port
    are non-empty and its pool size and default timeout are above 0; no other
    field (password, database, retries, socket timeouts, idle settings) can
    make it fail. *)
Theorem Validate_accepts_iff (w : world) (l : positive) (c : Config)
    (Hc : configs w !! l = Some c) :
  Validate (Some l) w = (Ok None, w)
  <-> Host c <> "" /\ Port c <> "" /\ 0 < PoolSize c /\ 0 < DefaultTimeout c.
Proof.
  rewrite (Validate_run w l c Hc).
  destruct (String.eqb (Host c) "") eqn:Hh;
    [apply eqb_empty in Hh; split; [discriminate | tauto]|].
  destruct (String.eqb (Port c) "") eqn:Hp;
    [apply eqb_empty in Hp; split; [discriminate | tauto]|].
  destruct (PoolSize c <=? 0) eqn:Hs;
    [apply Z.leb_le in Hs; split; [discriminate | lia]|].
  destruct (DefaultTimeout c <=? 0) eqn:Ht;
    [apply Z.leb_le in Ht; split; [discriminate | lia]|].
  apply eqb_nonempty in Hh. apply eqb_nonempty in Hp.
  apply Z.leb_gt in Hs. apply Z.leb_gt in Ht.
  split; [intros _; repeat split; assumption | reflexivity].
Qed.

Lemma Validate_accepts_iff_witness :
  Validate (Some 1%positive) (store1 odd_but_valid) = (Ok None, store1 odd_but_valid).
Proof.
  apply (proj2 (Validate_accepts_iff (store1 odd_but_valid) 1%positive odd_but_valid eq_refl)).
  repeat split; (discriminate || reflexivity).
Defined.

(** X2: of the client and the error that [NewClient] returns, exactly one
    is nil.  When it is the error that is set, it wraps [ErrInvalidConfig]
    and the store and the trace are as before the call: [NewClient] has no
    other way to fail. *)
Theorem NewClient_client_xor_error (driver : Driver) (cfg : option positive) (w w' : world)
    (c : option positive) (err : option error)
    (Hrun : NewClient driver cfg w = (Ok (c, err), w')) :
  (c = None /\ w' = w /\ exists e, err = Some e /\ Is e ErrInvalidConfig = true)
  \/ (is_Some c /\ err = None).
Proof.
  destruct (NewClient_cases driver cfg w) as [[msg H] | [[e [H He]] | [l [c0 [w1 [H _]]]]]];
    rewrite H in Hrun.
  - discriminate.
  - injection Hrun as <- <- <-. left. split; [reflexivity|]. split; [reflexivity|].
    exists e. split; [reflexivity | exact He].
  - injection Hrun as <- <- <-. right. split; [eexists; reflexivity | reflexivity].
Qed.

Lemma NewClient_client_xor_error_witness :
  (@None positive = None /\ store1 all_invalid = store1 all_invalid
   /\ exists e, Some (fmt.Errorf "%w: host is required" ErrInvalidConfig) = Some e
                /\ Is e ErrInvalidConfig = true)
  \/ (is_Some (@None positive)
      /\ Some (fmt.Errorf "%w: host is required" ErrInvalidConfig) = None).
Proof.
  apply (NewClient_client_xor_error healthy (Some 1%positive) (store1 all_invalid)).
  reflexivity.
Defined.

(** X3: [NewClient] never probes the server.  Whatever the argument and
    however the call ends, the trace afterwards is the trace before, followed
    by at most one call of [redis.NewClient]; the number of pings is
    unchanged. *)
Theorem NewClient_never_pings (driver : Driver) (cfg : option positive) (w : world) :
  (trace (snd (NewClient driver cfg w)) = trace w
   \/ exists opt rdb,
        trace (snd (NewClient driver cfg w)) = (trace w ++ [NewClientCall opt rdb])%list)
  /\ pings (trace (snd (NewClient driver cfg w))) = pings (trace w).
Proof.
  destruct (NewClient_cases driver cfg w)
    as [[msg H] | [[e [H He]] | [l [c0 [w1 [H [_ [_ [Ht _]]]]]]]]];
    rewrite H; cbn [snd].
  - split; [left|]; reflexivity.
  - split; [left|]; reflexivity.
  - cbn [constructed trace]. rewrite Ht. split.
    + right. eexists _, _. reflexivity.
    + rewrite pings_app. cbn. lia.
Qed.

(** X4: [NewClient] leaves every object of the store in place.  Each
    configuration and each client that was there before the call is there
    afterwards, unchanged; the call only adds objects. *)
Theorem NewClient_keeps_objects (driver : Driver) (cfg : option positive) (w : world) :
  configs w ⊆ configs (snd (NewClient driver cfg w))
  /\ clients w ⊆ clients (snd (NewClient driver cfg w)).
Proof.
  destruct (NewClient_cases driver cfg w)
    as [[msg H] | [[e [H He]] | [l [c0 [w1 [H [Hsub [Hcl _]]]]]]]];
    rewrite H; cbn [snd].
  - split; reflexivity.
  - split; reflexivity.
  - cbn [constructed configs clients]. split; [exact Hsub|].
    rewrite Hcl. apply insert_subseteq, fresh_location_free.
Qed.

(** ** Further properties of [HealthCheck] and of callers *)

Lemma assign_Config_run (w : world) (l : positive) (c : Config) (upd : Config -> Config) :
  configs w !! l = Some c ->
  assign_Config (Some l) upd w
  = (Ok tt, {| configs := <[l := upd c]> (configs w); clients := clients w;
               trace := trace w |}).
Proof. intros H. unfold assign_Config. rewrite H. reflexivity. Qed.

Lemma HealthCheck_run (driver : Driver) (w : world) (lc lcfg : positive)
    (cl : Client) (rdb : redis.Client) (cfg : Config) :
  clients w !! lc = Some cl ->
  redis_Client cl = Some rdb ->
  config cl = Some lcfg ->
  configs w !! lcfg = Some cfg ->
  HealthCheck driver (Some lc) w
  = (Ok (Ping_err driver (trace w) rdb
           (context.WithTimeout context.Background (DefaultTimeout cfg))),
     pinged driver rdb (DefaultTimeout cfg) w).
Proof.
  intros Hcl Hrdb Hptr Hcfg. unfold HealthCheck.
  rewrite (bind_run _ _ _ _ _ (Client_field_run redis_Client w lc cl Hcl)), Hrdb.
  rewrite (bind_run _ _ _ _ _ (Client_field_run config w lc cl Hcl)), Hptr.
  rewrite (bind_run _ _ _ _ _ (Config_field_run DefaultTimeout w lcfg cfg Hcfg)).
  reflexivity.
Qed.

Lemma constructed_client (driver : Driver) (l : positive) (c : Config) (w : world) :
  clients (constructed driver l c w) !! fresh (dom (clients w))
  = Some {| redis_Client := Some (NewClient_ret driver (trace w) (Options_of c));
            config := Some l |}.
Proof. apply lookup_insert_eq. Qed.

(** X5: the start-up sequence on a configuration in the store.  When
    [Validate] rejects it, the sequence ends with that error and nothing has
    happened.  When [Validate] accepts it and the driver's constructor
    panics on its options, the sequence panics likewise, before any ping.
    When [Validate] accepts it and the constructor returns, the health check
    runs on the new client without panic and the sequence returns what the
    driver's [Ping] returned, for the handle that [redis.NewClient] gave and
    under the timeout [DefaultTimeout] of the configuration; the trace holds
    that construction, one ping and the cancel, in this order. *)
Theorem connect_then_check_run (driver : Driver) (w : world) (l : positive) (c : Config)
    (v : option error)
    (Hc : configs w !! l = Some c)
    (Hv : Validate (Some l) w = (Ok v, w)) :
  match v, NewClient_panics driver (Options_of c) with
  | Some e, _ => connect_then_check driver (Some l) w = (Ok (Some e), w)
  | None, Some msg => connect_then_check driver (Some l) w = (Panic msg, w)
  | None, None =>
    let rdb := NewClient_ret driver (trace w) (Options_of c) in
    let ctx := context.WithTimeout context.Background (DefaultTimeout c) in
    let reply :=
      Ping_err driver (trace w ++ [NewClientCall (Options_of c) rdb])%list rdb ctx in
    exists w' : world,
      connect_then_check driver (Some l) w = (Ok reply, w')
      /\ trace w' = (trace w ++ [NewClientCall (Options_of c) rdb;
                                 PingCall rdb ctx reply; CancelCall ctx])%list
  end.
Proof.
  destruct v as [e|].
  - unfold connect_then_check.
    rewrite (bind_run _ _ _ _ _ (NewClient_rejects driver w l e Hv)). reflexivity.
  - destruct (NewClient_panics driver (Options_of c)) as [msg|] eqn:Hd.
    + unfold connect_then_check, bind.
      rewrite (NewClient_driver_panics driver w l c msg Hc Hv Hd). reflexivity.
    + intros rdb ctx reply.
      exists (pinged driver rdb (DefaultTimeout c) (constructed driver l c w)).
      split.
      * unfold connect_then_check.
        rewrite (bind_run _ _ _ _ _ (NewClient_accepts driver w l c Hc Hv Hd)).
        cbn [snd fst].
        apply (HealthCheck_run driver (constructed driver l c w) _ l _ rdb c
                 (constructed_client driver l c w)); [reflexivity | reflexivity | exact Hc].
      * cbn [pinged constructed trace]. rewrite <- !List.app_assoc. reflexivity.
Qed.

Lemma connect_then_check_run_witness :
  exists w' : world,
    connect_then_check unreachable (Some 1%positive) (store1 DefaultConfig_value)
    = (Ok (Some (errorString 3 "dial tcp: connection refused")), w')
    /\ trace w' =
       [NewClientCall (Options_of DefaultConfig_value) 1%positive;
        PingCall 1%positive (context.WithTimeout context.Background (5 * time.Second))
          (Some (errorString 3 "dial tcp: connection refused"));
        CancelCall (context.WithTimeout context.Background (5 * time.Second))].
Proof.
  exact (connect_then_check_run unreachable (store1 DefaultConfig_value) 1%positive
           DefaultConfig_value None eq_refl eq_refl).
Defined.

(** X8: [HealthCheck] can be repeated.  Two checks in a row on a client with
    a connection and a configuration send two pings, each to the same handle
    under the same timeout, each returning its own reply; the second reply
    is the driver's answer after the first ping and its cancel.  No object
    of the store changes. *)
Theorem HealthCheck_twice (driver : Driver) (w : world) (lc lcfg : positive)
    (cl : Client) (rdb : redis.Client) (cfg : Config)
    (Hcl : clients w !! lc = Some cl)
    (Hrdb : redis_Client cl = Some rdb)
    (Hptr : config cl = Some lcfg)
    (Hcfg : configs w !! lcfg = Some cfg) :
  let ctx := context.WithTimeout context.Background (DefaultTimeout cfg) in
  let reply1 := Ping_err driver (trace w) rdb ctx in
  let t1 := (trace w ++ [PingCall rdb ctx reply1; CancelCall ctx])%list in
  let reply2 := Ping_err driver t1 rdb ctx in
  exists w' : world,
    (e1 <- HealthCheck driver (Some lc) ;; e2 <- HealthCheck driver (Some lc) ;; ret (e1, e2)) w
    = (Ok (reply1, reply2), w')
    /\ trace w' = (t1 ++ [PingCall rdb ctx reply2; CancelCall ctx])%list
    /\ pings (trace w') = S (S (pings (trace w)))
    /\ configs w' = configs w
    /\ clients w' = clients w.
Proof.
  intros ctx reply1 t1 reply2.
  set (w1 := pinged driver rdb (DefaultTimeout cfg) w).
  assert (Ht1 : trace w1 = t1)
    by (cbn [w1 pinged trace]; rewrite <- List.app_assoc; reflexivity).
  exists (pinged driver rdb (DefaultTimeout cfg) w1).
  split.
  { rewrite (bind_run _ _ _ _ _ (HealthCheck_run driver w lc lcfg cl rdb cfg Hcl Hrdb Hptr Hcfg)).
    rewrite (bind_run _ _ _ _ _
               (HealthCheck_run driver w1 lc lcfg cl rdb cfg Hcl Hrdb Hptr Hcfg)).
    unfold ret. rewrite Ht1. reflexivity. }
  assert (Ht2 : trace (pinged driver rdb (DefaultTimeout cfg) w1)
                = (t1 ++ [PingCall rdb ctx reply2; CancelCall ctx])%list).
  { cbn [pinged trace]. fold (pinged driver rdb (DefaultTimeout cfg) w) w1.
    rewrite <- List.app_assoc. rewrite Ht1. reflexivity. }
  split; [exact Ht2|].
  split; [|split; reflexivity].
  rewrite Ht2. unfold t1. rewrite !pings_app. cbn. lia.
Qed.

Lemma HealthCheck_twice_witness :
  exists w' : world,
    (e1 <- HealthCheck healthy (Some 1%positive) ;;
     e2 <- HealthCheck healthy (Some 1%positive) ;; ret (e1, e2)) store_with_client
    = (Ok (None, None), w')
    /\ trace w' =
       [PingCall 7%positive (context.WithTimeout context.Background (5 * time.Second)) None;
        CancelCall (context.WithTimeout context.Background (5 * time.Second));
        PingCall 7%positive (context.WithTimeout context.Background (5 * time.Second)) None;
        CancelCall (context.WithTimeout context.Background (5 * time.Second))]
    /\ pings (trace w') = 2%nat
    /\ configs w' = configs store_with_client
    /\ clients w' = clients store_with_client.
Proof.
  apply (HealthCheck_twice healthy store_with_client 1%positive 1%positive
           {| redis_Client := Some 7%positive; config := Some 1%positive |}
           7%positive DefaultConfig_value);
    reflexivity.
Defined.

(** X9: the client shares the configuration object with its maker, it keeps
    no copy.  After an assignment to [DefaultTimeout] through the
    configuration pointer, the next [HealthCheck] pings under the new
    timeout, whatever its value: nothing validates it again, so zero and
    negative timeouts reach the driver too. *)
Theorem HealthCheck_follows_assignment (driver : Driver) (w : world) (lc lcfg : positive)
    (cl : Client) (rdb : redis.Client) (cfg : Config) (d : time.Duration)
    (Hcl : clients w !! lc = Some cl)
    (Hrdb : redis_Client cl = Some rdb)
    (Hptr : config cl = Some lcfg)
    (Hcfg : configs w !! lcfg = Some cfg) :
  let ctx := context.WithTimeout context.Background d in
  let reply := Ping_err driver (trace w) rdb ctx in
  exists w' : world,
    (assign_Config (Some lcfg) (set_DefaultTimeout d) ;;;
     HealthCheck driver (Some lc)) w
    = (Ok reply, w')
    /\ trace w' = (trace w ++ [PingCall rdb ctx reply; CancelCall ctx])%list
    /\ configs w' !! lcfg = Some (set_DefaultTimeout d cfg).
Proof.
  intros ctx reply.
  set (w1 := {| configs := <[lcfg := set_DefaultTimeout d cfg]> (configs w);
                clients := clients w; trace := trace w |}).
  assert (H1 : configs w1 !! lcfg = Some (set_DefaultTimeout d cfg))
    by apply lookup_insert_eq.
  exists (pinged driver rdb d w1).
  split.
  { rewrite (bind_run _ _ _ _ _ (assign_Config_run w lcfg cfg _ Hcfg)).
    apply (HealthCheck_run driver w1 lc lcfg cl rdb _ Hcl Hrdb Hptr H1). }
  split; [cbn [pinged w1 trace]; rewrite <- List.app_assoc; reflexivity | exact H1].
Qed.

Lemma HealthCheck_follows_assignment_witness :
  exists w' : world,
    (assign_Config (Some 1%positive) (set_DefaultTimeout (-1)) ;;;
     HealthCheck healthy (Some 1%positive)) store_with_client
    = (Ok None, w')
    /\ trace w' =
       [PingCall 7%positive (context.WithTimeout context.Background (-1)) None;
        CancelCall (context.WithTimeout context.Background (-1))]
    /\ configs w' !! 1%positive = Some (set_DefaultTimeout (-1) DefaultConfig_value).
Proof.
  apply (HealthCheck_follows_assignment healthy store_with_client 1%positive 1%positive
           {| redis_Client := Some 7%positive; config := Some 1%positive |}
           7%positive DefaultConfig_value (-1));
    reflexivity.
Defined.

Lemma GetConfig_run (w : world) (lc : positive) (cl : Client) :
  clients w !! lc = Some cl ->
  GetConfig (Some lc) w = (Ok (config cl), w).
Proof. intros H. unfold GetConfig. apply (Client_field_run config w lc cl H). Qed.

Lemma fresh_after_insert {V} (m : gmap positive V) (v : V) :
  fresh (dom (<[fresh (dom m) := v]> m)) <> fresh (dom m).
Proof.
  intros Heq.
  apply (is_fresh (dom (<[fresh (dom m) := v]> m))).
  rewrite Heq. apply elem_of_dom. exists v. apply lookup_insert_eq.
Qed.

(** X10: two clients made one after the other from accepted configurations
    (at two locations, or both from the same one), on whose options the
    driver's constructor returns, are two different objects.
    Each reports the configuration pointer it was made from, and making the
    second leaves the first as it was; made from one pointer, the two
    clients share that configuration. *)
Theorem two_clients_apart (driver : Driver) (w : world) (l1 l2 : positive) (c1 c2 : Config)
    (Hc1 : configs w !! l1 = Some c1)
    (Hc2 : configs w !! l2 = Some c2)
    (Hv1 : Validate (Some l1) w = (Ok None, w))
    (Hv2 : Validate (Some l2) w = (Ok None, w))
    (Hd1 : NewClient_panics driver (Options_of c1) = None)
    (Hd2 : NewClient_panics driver (Options_of c2) = None) :
  exists (lc1 lc2 : positive) (rdb1 rdb2 : redis.Client) (w' : world),
    two_clients driver (Some l1) (Some l2) w
    = (Ok (Some lc1, Some lc2, Some l1, Some l2), w')
    /\ lc1 <> lc2
    /\ clients w' !! lc1 = Some {| redis_Client := Some rdb1; config := Some l1 |}
    /\ clients w' !! lc2 = Some {| redis_Client := Some rdb2; config := Some l2 |}
    /\ configs w' = configs w
    /\ trace w' = (trace w ++ [NewClientCall (Options_of c1) rdb1;
                               NewClientCall (Options_of c2) rdb2])%list.
Proof.
  set (w1 := constructed driver l1 c1 w).
  set (w2 := constructed driver l2 c2 w1).
  assert (Hv2' : Validate (Some l2) w1 = (Ok None, w1))
    by (apply (Validate_transfer w w1 l2 c2 None Hc2 Hc2 Hv2)).
  assert (Hne : fresh (dom (clients w1)) <> fresh (dom (clients w)))
    by apply fresh_after_insert.
  assert (Hcl1 : clients w2 !! fresh (dom (clients w))
                 = Some {| redis_Client := Some (NewClient_ret driver (trace w) (Options_of c1));
                           config := Some l1 |}).
  { cbn [w2 constructed clients]. rewrite lookup_insert_ne by exact Hne.
    apply constructed_client. }
  exists (fresh (dom (clients w))), (fresh (dom (clients w1))),
         (NewClient_ret driver (trace w) (Options_of c1)),
         (NewClient_ret driver (trace w1) (Options_of c2)), w2.
  split.
  { unfold two_clients.
    rewrite (bind_run _ _ _ _ _ (NewClient_accepts driver w l1 c1 Hc1 Hv1 Hd1)).
    rewrite (bind_run _ _ _ _ _ (NewClient_accepts driver w1 l2 c2 Hc2 Hv2' Hd2)).
    cbn [fst].
    rewrite (bind_run _ _ _ _ _ (GetConfig_run w2 _ _ Hcl1)).
    rewrite (bind_run _ _ _ _ _ (GetConfig_run w2 _ _ (constructed_client driver l2 c2 w1))).
    reflexivity. }
  split; [intros Heq; apply Hne; symmetry; exact Heq|].
  split; [exact Hcl1|].
  split; [apply constructed_client|].
  split; [reflexivity|].
  cbn [w2 w1 constructed trace]. rewrite <- List.app_assoc. reflexivity.
Qed.

Lemma two_clients_apart_witness :
  exists (lc1 lc2 : positive) (rdb1 rdb2 : redis.Client) (w' : world),
    two_clients healthy (Some 1%positive) (Some 1%positive) (store1 DefaultConfig_value)
    = (Ok (Some lc1, Some lc2, Some 1%positive, Some 1%positive), w')
    /\ lc1 <> lc2
    /\ clients w' !! lc1 = Some {| redis_Client := Some rdb1; config := Some 1%positive |}
    /\ clients w' !! lc2 = Some {| redis_Client := Some rdb2; config := Some 1%positive |}
    /\ configs w' = configs (store1 DefaultConfig_value)
    /\ trace w' = (trace (store1 DefaultConfig_value)
                   ++ [NewClientCall (Options_of DefaultConfig_value) rdb1;
                       NewClientCall (Options_of DefaultConfig_value) rdb2])%list.
Proof.
  apply (two_clients_apart healthy (store1 DefaultConfig_value) 1%positive 1%positive
           DefaultConfig_value DefaultConfig_value); reflexivity.
Defined.

(** X11: two clients made from nil do not share their defaults.  Each call
    of [NewClient] on nil allocates its own configuration: the two clients
    differ, the two configuration pointers they report differ, both are new
    to the store and both hold the default values. *)
Theorem two_default_clients_apart (driver : Driver) (w : world) :
  exists (lc1 lc2 l1 l2 : positive) (w' : world),
    two_clients driver None None w = (Ok (Some lc1, Some lc2, Some l1, Some l2), w')
    /\ lc1 <> lc2 /\ l1 <> l2
    /\ configs w !! l1 = None /\ configs w !! l2 = None
    /\ configs w' !! l1 = Some DefaultConfig_value
    /\ configs w' !! l2 = Some DefaultConfig_value.
Proof.
  set (l1 := fresh (dom (configs w))).
  set (w1 := constructed driver l1 DefaultConfig_value (with_default w)).
  set (l2 := fresh (dom (configs w1))).
  set (w2 := constructed driver l2 DefaultConfig_value (with_default w1)).
  assert (Hl : l2 <> l1) by apply fresh_after_insert.
  assert (Hne : fresh (dom (clients w1)) <> fresh (dom (clients w)))
    by apply fresh_after_insert.
  assert (Hcl1 : clients w2 !! fresh (dom (clients w))
                 = Some {| redis_Client :=
                             Some (NewClient_ret driver (trace w) (Options_of DefaultConfig_value));
                           config := Some l1 |}).
  { cbn [w2 constructed with_default clients]. rewrite lookup_insert_ne by exact Hne.
    apply (constructed_client driver l1 DefaultConfig_value (with_default w)). }
  exists (fresh (dom (clients w))), (fresh (dom (clients w1))), l1, l2, w2.
  split.
  { unfold two_clients.
    rewrite (bind_run _ _ _ _ _ (NewClient_nil_run driver w)).
    rewrite (bind_run _ _ _ _ _ (NewClient_nil_run driver w1)).
    cbn [fst].
    rewrite (bind_run _ _ _ _ _ (GetConfig_run w2 _ _ Hcl1)).
    rewrite (bind_run _ _ _ _ _
               (GetConfig_run w2 _ _
                  (constructed_client driver l2 DefaultConfig_value (with_default w1)))).
    reflexivity. }
  split; [intros Heq; apply Hne; symmetry; exact Heq|].
  split; [intros Heq; apply Hl; symmetry; exact Heq|].
  split; [apply fresh_location_free|].
  split.
  { destruct (configs w !! l2) as [c|] eqn:Hlook; [|reflexivity].
    exfalso. assert (Hin : configs w1 !! l2 = Some c).
    { cbn [w1 constructed with_default configs].
      rewrite lookup_insert_ne by (intros Heq; apply Hl; symmetry; exact Heq).
      exact Hlook. }
    pose proof (fresh_location_free (configs w1)) as Hfree.
    fold l2 in Hfree. congruence. }
  split.
  { cbn [w2 constructed with_default configs].
    rewrite lookup_insert_ne by exact Hl.
    apply with_default_lookup. }
  apply (with_default_lookup w1).
Qed.

(** X12: [SocketKeepalive] and [HealthCheckInterval] never reach the driver.
    Assigning any values to these two fields of a configuration changes
    nothing in what [NewClient] returns, in the client it makes, or in the
    options it hands to [redis.NewClient]. *)
Theorem NewClient_ignores_keepalive_and_interval (driver : Driver) (w : world) (l : positive)
    (c : Config) (k : bool) (h : time.Duration)
    (Hc : configs w !! l = Some c) :
  exists w2 : world,
    (assign_Config (Some l) (set_SocketKeepalive k) ;;;
     assign_Config (Some l) (set_HealthCheckInterval h)) w = (Ok tt, w2)
    /\ configs w2 !! l = Some (set_HealthCheckInterval h (set_SocketKeepalive k c))
    /\ fst (NewClient driver (Some l) w2) = fst (NewClient driver (Some l) w)
    /\ clients (snd (NewClient driver (Some l) w2)) = clients (snd (NewClient driver (Some l) w))
    /\ trace (snd (NewClient driver (Some l) w2)) = trace (snd (NewClient driver (Some l) w)).
Proof.
  set (c1 := set_SocketKeepalive k c).
  set (c2 := set_HealthCheckInterval h c1).
  set (w1 := {| configs := <[l := c1]> (configs w); clients := clients w; trace := trace w |}).
  set (w2 := {| configs := <[l := c2]> (configs w1); clients := clients w1;
                trace := trace w1 |}).
  assert (H1 : configs w1 !! l = Some c1) by apply lookup_insert_eq.
  assert (H2 : configs w2 !! l = Some c2) by apply lookup_insert_eq.
  exists w2.
  split.
  { rewrite (bind_run _ _ _ _ _ (assign_Config_run w l c _ Hc)).
    apply (assign_Config_run w1 l c1 _ H1). }
  split; [exact H2|].
  destruct (Validate_total w l c Hc) as [v Hv].
  assert (Hv2 : Validate (Some l) w2 = (Ok v, w2)).
  { rewrite (Validate_run w l c Hc) in Hv. injection Hv as <-.
    apply (Validate_run w2 l c2 H2). }
  destruct v as [e|].
  - rewrite (NewClient_rejects driver w l e Hv), (NewClient_rejects driver w2 l e Hv2).
    repeat split.
  - destruct (NewClient_panics driver (Options_of c)) as [msg|] eqn:Hd.
    + rewrite (NewClient_driver_panics driver w l c msg Hc Hv Hd),
              (NewClient_driver_panics driver w2 l c2 msg H2 Hv2 Hd).
      repeat split.
    + rewrite (NewClient_accepts driver w l c Hc Hv Hd),
              (NewClient_accepts driver w2 l c2 H2 Hv2 Hd).
      repeat split.
Qed.

Lemma NewClient_ignores_keepalive_and_interval_witness :
  exists w2 : world,
    (assign_Config (Some 1%positive) (set_SocketKeepalive false) ;;;
     assign_Config (Some 1%positive) (set_HealthCheckInterval 0))
      (store1 DefaultConfig_value) = (Ok tt, w2)
    /\ configs w2 !! 1%positive
       = Some (set_HealthCheckInterval 0 (set_SocketKeepalive false DefaultConfig_value))
    /\ fst (NewClient healthy (Some 1%positive) w2)
       = fst (NewClient healthy (Some 1%positive) (store1 DefaultConfig_value))
    /\ clients (snd (NewClient healthy (Some 1%positive) w2))
       = clients (snd (NewClient healthy (Some 1%positive) (store1 DefaultConfig_value)))
    /\ trace (snd (NewClient healthy (Some 1%positive) w2))
       = trace (snd (NewClient healthy (Some 1%positive) (store1 DefaultConfig_value))).
Proof.
  apply (NewClient_ignores_keepalive_and_interval healthy (store1 DefaultConfig_value)
           1%positive DefaultConfig_value false 0).
  reflexivity.
Defined.

Lemma Validate_accepts_when (w : world) (l : positive) (c : Config) :
  configs w !! l = Some c ->
  Host c <> "" -> Port c <> "" -> 0 < PoolSize c -> 0 < DefaultTimeout c ->
  Validate (Some l) w = (Ok None, w).
Proof.
  intros Hc Hh Hp Hs Ht. rewrite (Validate_run w l c Hc).
  apply eqb_nonempty in Hh. apply eqb_nonempty in Hp.
  apply Z.leb_gt in Hs. apply Z.leb_gt in Ht.
  rewrite Hh, Hp, Hs, Ht. reflexivity.
Qed.

(** X13: the README's custom set-up works for every non-empty host and every
    pool size above 0 on which the driver's constructor returns.  Taking the
    defaults, assigning [Host] and [PoolSize] and constructing then returns
    a client and no error; the client reports the configuration object that
    was assigned to, and the driver is asked once, for address host:6379 and
    that pool size. *)
Theorem configure_then_connect_succeeds (driver : Driver) (w : world)
    (host : string) (poolSize : Z)
    (Hhost : host <> "")
    (Hpool : 0 < poolSize)
    (Hdriver : NewClient_panics driver
                 (Options_of (set_PoolSize poolSize (set_Host host DefaultConfig_value)))
               = None) :
  let c := set_PoolSize poolSize (set_Host host DefaultConfig_value) in
  exists (lc l : positive) (rdb : redis.Client) (w' : world),
    configure_then_connect driver host poolSize w = (Ok (Some lc, None), w')
    /\ GetConfig (Some lc) w' = (Ok (Some l), w')
    /\ configs w !! l = None
    /\ configs w' !! l = Some c
    /\ trace w' = (trace w ++ [NewClientCall (Options_of c) rdb])%list
    /\ redis.Addr (Options_of c) = host +:+ ":6379"
    /\ redis.PoolSize (Options_of c) = poolSize.
Proof.
  intros c.
  set (l := fresh (dom (configs w))).
  set (c1 := set_Host host DefaultConfig_value).
  set (w1 := {| configs := <[l := c1]> (configs (with_default w));
                clients := clients w; trace := trace w |}).
  set (w2 := {| configs := <[l := c]> (configs w1);
                clients := clients w; trace := trace w |}).
  assert (H1 : configs w1 !! l = Some c1) by apply lookup_insert_eq.
  assert (H2 : configs w2 !! l = Some c) by apply lookup_insert_eq.
  assert (Hv : Validate (Some l) w2 = (Ok None, w2)).
  { apply (Validate_accepts_when w2 l c H2);
      [exact Hhost | discriminate | exact Hpool | reflexivity]. }
  exists (fresh (dom (clients w))), l,
         (NewClient_ret driver (trace w) (Options_of c)),
         (constructed driver l c w2).
  split.
  { unfold configure_then_connect.
    rewrite (bind_run _ _ _ _ _ (DefaultConfig_run w)).
    rewrite (bind_run _ _ _ _ _
               (assign_Config_run (with_default w) l DefaultConfig_value _
                  (with_default_lookup w))).
    rewrite (bind_run _ _ _ _ _ (assign_Config_run w1 l c1 _ H1)).
    apply (NewClient_accepts driver w2 l c H2 Hv Hdriver). }
  split; [exact (GetConfig_constructed driver l c w2)|].
  split; [apply fresh_location_free|].
  split; [exact H2|].
  repeat split.
Qed.

Lemma configure_then_connect_succeeds_witness :
  exists (lc l : positive) (rdb : redis.Client) (w' : world),
    configure_then_connect healthy "redis-server" 50 (store1 DefaultConfig_value)
    = (Ok (Some lc, None), w')
    /\ GetConfig (Some lc) w' = (Ok (Some l), w')
    /\ configs (store1 DefaultConfig_value) !! l = None
    /\ configs w' !! l
       = Some (set_PoolSize 50 (set_Host "redis-server" DefaultConfig_value))
    /\ trace w' =
       (trace (store1 DefaultConfig_value)
        ++ [NewClientCall
              (Options_of (set_PoolSize 50 (set_Host "redis-server" DefaultConfig_value)))
              rdb])%list
    /\ redis.Addr (Options_of (set_PoolSize 50 (set_Host "redis-server" DefaultConfig_value)))
       = "redis-server:6379"
    /\ redis.PoolSize
         (Options_of (set_PoolSize 50 (set_Host "redis-server" DefaultConfig_value)))
       = 50.
Proof.
  apply (configure_then_connect_succeeds healthy (store1 DefaultConfig_value)
           "redis-server" 50); [discriminate | reflexivity | reflexivity].
Defined.

Lemma HealthCheck_nil_connection_run_witness :
  HealthCheck healthy (Some 1%positive)
    {| configs := ∅;
       clients := {[1%positive := {| redis_Client := None; config := None |}]};
       trace := [] |}
  = (Ok (Some ErrNilClient),
     {| configs := ∅;
        clients := {[1%positive := {| redis_Client := None; config := None |}]};
        trace := [] |}).
Proof.
  apply (HealthCheck_nil_connection_run healthy _ 1%positive
           {| redis_Client := None; config := None |}); reflexivity.
Defined.

Lemma HealthCheck_nil_config_panics_witness :
  HealthCheck healthy (Some 1%positive)
    {| configs := ∅;
       clients := {[1%positive := {| redis_Client := Some 7%positive; config := None |}]};
       trace := [] |}
  = (Panic nil_dereference,
     {| configs := ∅;
        clients := {[1%positive := {| redis_Client := Some 7%positive; config := None |}]};
        trace := [] |}).
Proof.
  apply (HealthCheck_nil_config_panics healthy _ 1%positive
           {| redis_Client := Some 7%positive; config := None |} 7%positive); reflexivity.
Defined.

(** X14: the start-up sequence on nil, as the README and the health-check
    test run it.  In every store and with every driver, construction cannot
    fail; the health check then pings the handle that [redis.NewClient]
    returned for the default options (address localhost:6379) under the
    default timeout of 5s, and the sequence returns that ping's result. *)
Theorem connect_then_check_nil (driver : Driver) (w : world) :
  let opt := Options_of DefaultConfig_value in
  let rdb := NewClient_ret driver (trace w) opt in
  let ctx := context.WithTimeout context.Background (5 * time.Second) in
  let reply := Ping_err driver (trace w ++ [NewClientCall opt rdb])%list rdb ctx in
  exists w' : world,
    connect_then_check driver None w = (Ok reply, w')
    /\ trace w' = (trace w ++ [NewClientCall opt rdb; PingCall rdb ctx reply;
                               CancelCall ctx])%list
    /\ redis.Addr opt = "localhost:6379".
Proof.
  intros opt rdb ctx reply.
  set (l := fresh (dom (configs w))).
  set (w1 := constructed driver l DefaultConfig_value (with_default w)).
  exists (pinged driver rdb (5 * time.Second) w1).
  split.
  - unfold connect_then_check.
    rewrite (bind_run _ _ _ _ _ (NewClient_nil_run driver w)).
    cbn [snd fst].
    apply (HealthCheck_run driver w1 _ l _ rdb DefaultConfig_value
             (constructed_client driver l DefaultConfig_value (with_default w)));
      [reflexivity | reflexivity | apply with_default_lookup].
  - split; [|reflexivity].
    cbn [pinged w1 constructed with_default trace].
    rewrite <- !List.app_assoc. reflexivity.
Qed.
